(** * health_server.py: the test-environment health-check server

    A shallow embedding of [docker/test-environment/health_server.py]:
    the request handler [HealthCheckHandler] ([do_GET], [do_POST]), the
    module global [server_start_time] and the serving loop, together
    with the part of the Python runtime the handler calls into
    ([json.loads], [bytes.decode], [int], [rfile.read], [dict.get],
    f-string formatting). *)

From Stdlib Require Import String Ascii List ZArith NArith QArith Qround Bool Lia.
From Stdlib Require Import DecimalString.
From Stdlib Require Import DecimalPos.
Import ListNotations.

Close Scope Q_scope.
Open Scope string_scope.
Set Warnings "-register-all".

(** ** Python values

    The values that flow through the handler are the ones [json.loads]
    can build and the ones the response literals denote.  A Python [str]
    is represented by its UTF-8 encoding (a lone surrogate, which only a
    JSON [\uXXXX] escape can produce, by its three-byte generalised
    encoding).  A Python [float] is represented by the decimal text that
    denotes it: the lexeme of the JSON number or of the source literal. *)

Inductive pyval : Type :=
| PNone
| PBool (b : bool)
| PInt (z : Z)
| PFloat (lexeme : string)
| PStr (s : string)
| PList (l : list pyval)
| PDict (d : list (string * pyval)).

(** The exceptions the handler can raise. *)
Inductive exn : Type :=
| TypeError
| ValueError
| AttributeError
| UnicodeDecodeError
| JSONDecodeError
| RecursionError.

(** The result of a call: it returns a value, raises, or never returns
    (a read that blocks for ever, a computation that does not end). *)
Inductive res (A : Type) : Type :=
| Val (a : A)
| Exc (e : exn)
| Diverge.
Arguments Val {A} a.
Arguments Exc {A} e.
Arguments Diverge {A}.

(** What the interpreter contributes and the source does not fix. *)
Record runtime : Type := {
  (** nested calls the interpreter can still enter when [json.loads] is
      called (what is left of [sys.getrecursionlimit()]) *)
  recursion_budget : nat;
  (** [sys.get_int_max_str_digits()]; [0] is "no limit" *)
  int_max_str_digits : nat;
  (** [float.__repr__], on the text that denotes the float *)
  float_repr : string -> string;
  (** [str.__repr__] *)
  str_repr : string -> string;
  (** binary64 subtraction, on the rationals the two floats denote *)
  float_sub : Q -> Q -> Q
}.

(** ** Characters and strings *)

Definition code (c : ascii) : N := N_of_ascii c.

Definition in_range (lo hi : N) (c : ascii) : bool :=
  ((lo <=? code c) && (code c <=? hi))%N.

Definition is_digit (c : ascii) : bool := in_range 48 57 c.

Definition digit_val (c : ascii) : Z := (Z.of_N (code c) - 48)%Z.

Fixpoint span_digits (s : string) : string * string :=
  match s with
  | String c r =>
      if is_digit c
      then let (ds, rest) := span_digits r in (String c ds, rest)
      else ("", s)
  | EmptyString => ("", s)
  end.

Fixpoint digits_to_Z (acc : Z) (s : string) : Z :=
  match s with
  | String c r => digits_to_Z (10 * acc + digit_val c)%Z r
  | EmptyString => acc
  end.

Fixpoint strip_prefix (p s : string) : option string :=
  match p, s with
  | EmptyString, _ => Some s
  | String a p', String b s' => if (a =? b)%char then strip_prefix p' s' else None
  | String _ _, EmptyString => None
  end.

Fixpoint take (n : nat) (s : string) : string :=
  match n, s with
  | S n', String c r => String c (take n' r)
  | _, _ => ""
  end.

Fixpoint join (sep : string) (l : list string) : string :=
  match l with
  | [] => ""
  | [x] => x
  | x :: r => x ++ sep ++ join sep r
  end.

(** [int.__repr__] *)
Definition int_repr (z : Z) : string := NilZero.string_of_int (Z.to_int z).

(** ASCII lower case, as the header lookup folds names. *)
Definition lower (c : ascii) : ascii :=
  if in_range 65 90 c then ascii_of_N (code c + 32) else c.

Fixpoint lower_string (s : string) : string :=
  match s with
  | String c r => String (lower c) (lower_string r)
  | EmptyString => ""
  end.

(** ** [bytes.decode('utf-8')]

    Strict UTF-8: no overlong forms, no surrogates, nothing above
    U+10FFFF.  The decoded [str] is represented by the same bytes. *)

Definition is_cont (c : ascii) : bool := in_range 128 191 c.

Fixpoint utf8_valid (s : string) : bool :=
  match s with
  | EmptyString => true
  | String c r =>
      if in_range 0 127 c then utf8_valid r
      else if in_range 194 223 c then
        match r with
        | String c1 r1 => is_cont c1 && utf8_valid r1
        | _ => false
        end
      else if in_range 224 239 c then
        match r with
        | String c1 (String c2 r2) =>
            (if (code c =? 224)%N then in_range 160 191 c1
             else if (code c =? 237)%N then in_range 128 159 c1
             else is_cont c1)
            && is_cont c2 && utf8_valid r2
        | _ => false
        end
      else if in_range 240 244 c then
        match r with
        | String c1 (String c2 (String c3 r3)) =>
            (if (code c =? 240)%N then in_range 144 191 c1
             else if (code c =? 244)%N then in_range 128 143 c1
             else is_cont c1)
            && is_cont c2 && is_cont c3 && utf8_valid r3
        | _ => false
        end
      else false
  end.

Definition decode_utf8 (b : string) : res string :=
  if utf8_valid b then Val b else Exc UnicodeDecodeError.

(** ** [int(str)]

    Base-10 conversion of a [str]: surrounding white space is dropped,
    one sign is allowed, digits may be grouped by single underscores.
    The argument here is a header value, which the library decodes as
    ISO-8859-1, one character per byte. *)

Definition is_py_space (c : ascii) : bool :=
  in_range 9 13 c || in_range 28 32 c || (code c =? 133)%N || (code c =? 160)%N.

Fixpoint lstrip (s : string) : string :=
  match s with
  | String c r => if is_py_space c then lstrip r else s
  | EmptyString => s
  end.

Fixpoint all_space (s : string) : bool :=
  match s with
  | String c r => is_py_space c && all_space r
  | EmptyString => true
  end.

(** Digits with single underscores between them, up to trailing white
    space; yields the digits alone. *)
Fixpoint int_body (after_digit : bool) (s : string) : option string :=
  match s with
  | EmptyString => if after_digit then Some "" else None
  | String c r =>
      if is_digit c then
        match int_body true r with
        | Some ds => Some (String c ds)
        | None => None
        end
      else if (c =? "_")%char then
        if after_digit then
          match r with
          | String d _ => if is_digit d then int_body false r else None
          | EmptyString => None
          end
        else None
      else if after_digit && all_space s then Some ""
      else None
  end.

Definition too_many_digits (rt : runtime) (ds : string) : bool :=
  negb (int_max_str_digits rt =? 0)%nat
  && (int_max_str_digits rt <? String.length ds)%nat.

Definition py_int_of_str (rt : runtime) (s : string) : res Z :=
  let s := lstrip s in
  let (neg, s) :=
    match s with
    | String "-" r => (true, r)
    | String "+" r => (false, r)
    | _ => (false, s)
    end in
  match int_body false s with
  | Some ds =>
      if too_many_digits rt ds then Exc ValueError
      else Val (if neg : bool then (- digits_to_Z 0 ds)%Z else digits_to_Z 0 ds)
  | None => Exc ValueError
  end.

(** [int(x)] where [x] is [None] or a [str]: what
    [int(self.headers['Content-Length'])] evaluates. *)
Definition py_int (rt : runtime) (x : option string) : res Z :=
  match x with
  | None => Exc TypeError
  | Some s => py_int_of_str rt s
  end.

(** [int(x)] on a finite float: truncation towards zero. *)
Definition int_of_float (x : Q) : Z := Z.quot (Qnum x) (Zpos (Qden x)).

(** ** [json.loads]

    The scanner of the [json] module on a [str]: white space is space,
    tab, line feed and carriage return; strings are scanned in strict
    mode; [NaN], [Infinity] and [-Infinity] are accepted; an integer goes
    through [int], a number with a fraction or an exponent through
    [float]; every nested array or object enters one more call. *)

(** The quotation mark, and a text between quotation marks. *)
Definition dquote : ascii := "034".
Definition quoted (s : string) : string := String dquote (s ++ String dquote "").

Definition is_ws (c : ascii) : bool :=
  (c =? " ")%char || (c =? "009")%char || (c =? "010")%char || (c =? "013")%char.

Fixpoint skip_ws (s : string) : string :=
  match s with
  | String c r => if is_ws c then skip_ws r else s
  | EmptyString => s
  end.

Definition hex_val (c : ascii) : option N :=
  if is_digit c then Some (code c - 48)%N
  else if in_range 97 102 c then Some (code c - 87)%N
  else if in_range 65 70 c then Some (code c - 55)%N
  else None.

(** Four hexadecimal digits at the head of [s]. *)
Definition hex4 (s : string) : option (N * string) :=
  match s with
  | String a (String b (String c (String d r))) =>
      match hex_val a, hex_val b, hex_val c, hex_val d with
      | Some x, Some y, Some z, Some w => Some (((x * 16 + y) * 16 + z) * 16 + w, r)%N
      | _, _, _, _ => None
      end
  | _ => None
  end.

Definition byte (n : N) : ascii := ascii_of_N n.

(** The bytes that represent the code point [cp]. *)
Definition encode_cp (cp : N) : string :=
  (if cp <? 128 then String (byte cp) ""
   else if cp <? 2048 then
     String (byte (192 + cp / 64)) (String (byte (128 + cp mod 64)) "")
   else if cp <? 65536 then
     String (byte (224 + cp / 4096))
       (String (byte (128 + (cp / 64) mod 64)) (String (byte (128 + cp mod 64)) ""))
   else
     String (byte (240 + cp / 262144))
       (String (byte (128 + (cp / 4096) mod 64))
          (String (byte (128 + (cp / 64) mod 64)) (String (byte (128 + cp mod 64)) ""))))%N.

Definition simple_escape (c : ascii) : option ascii :=
  if (c =? dquote)%char then Some dquote
  else if (c =? "\")%char then Some "\"%char
  else if (c =? "/")%char then Some "/"%char
  else if (c =? "b")%char then Some "008"%char
  else if (c =? "f")%char then Some "012"%char
  else if (c =? "n")%char then Some "010"%char
  else if (c =? "r")%char then Some "013"%char
  else if (c =? "t")%char then Some "009"%char
  else None.

(** Put [p] in front of the content a scan has found. *)
Definition prepend (p : string) (x : option (string * string)) : option (string * string) :=
  match x with
  | Some (t, rest) => Some (p ++ t, rest)
  | None => None
  end.

Definition is_high_surrogate (cp : N) : bool := ((55296 <=? cp) && (cp <=? 56319))%N.
Definition is_low_surrogate (cp : N) : bool := ((56320 <=? cp) && (cp <=? 57343))%N.
Definition join_surrogates (hi lo : N) : N :=
  (65536 + (hi - 55296) * 1024 + (lo - 56320))%N.

(** [scanstring], entered after the opening quote: the string's content
    and what follows the closing quote.  A high surrogate escape that is
    followed by a low surrogate escape is one code point. *)
Fixpoint scanstring (s : string) : option (string * string) :=
  match s with
  | EmptyString => None
  | String c r =>
      if (c =? dquote)%char then Some ("", r)
      else if (c =? "\")%char then
        match r with
        | EmptyString => None
        | String e r1 =>
            if (e =? "u")%char then
              match r1 with
              | String h1 (String h2 (String h3 (String h4 r2))) =>
                  match hex4 (String h1 (String h2 (String h3 (String h4 "")))) with
                  | None => None
                  | Some (hi, _) =>
                      let single := prepend (encode_cp hi) (scanstring r2) in
                      if is_high_surrogate hi then
                        match r2 with
                        | String b (String u
                            (String l1 (String l2 (String l3 (String l4 r3))))) =>
                            if (b =? "\")%char && (u =? "u")%char then
                              match hex4 (String l1 (String l2 (String l3 (String l4 "")))) with
                              | None => None
                              | Some (lo, _) =>
                                  if is_low_surrogate lo
                                  then prepend (encode_cp (join_surrogates hi lo))
                                               (scanstring r3)
                                  else single
                              end
                            else single
                        | _ => single
                        end
                      else single
                  end
              | _ => None
              end
            else
              match simple_escape e with
              | Some x => prepend (String x "") (scanstring r1)
              | None => None
              end
        end
      else if (code c <? 32)%N then None
      else prepend (String c "") (scanstring r)
  end.

(** The fraction and the exponent of a number; each is left unread
    when its digits are missing. *)
Definition scan_frac (s : string) : string * string :=
  match s with
  | String p (String d r) =>
      if (p =? ".")%char && is_digit d
      then let (ds, r') := span_digits r in (String p (String d ds), r')
      else ("", s)
  | _ => ("", s)
  end.

Definition scan_exp (s : string) : string * string :=
  match s with
  | String e r =>
      if (e =? "e")%char || (e =? "E")%char then
        let (sg, r1) :=
          match r with
          | String c t =>
              if (c =? "+")%char || (c =? "-")%char then (String c "", t) else ("", r)
          | EmptyString => ("", r)
          end in
        match r1 with
        | String d t =>
            if is_digit d
            then let (ds, t') := span_digits t in (String e (sg ++ String d ds), t')
            else ("", s)
        | EmptyString => ("", s)
        end
      else ("", s)
  | EmptyString => ("", s)
  end.

(** The number at the head of [s], if there is one: an optional minus
    sign; a zero, or a non-zero digit and more digits; then the fraction
    and the exponent.  With neither it is an [int], else a [float]. *)
Definition match_number (rt : runtime) (s : string) : res (pyval * string) :=
  let (neg, s1) :=
    match s with
    | String c r => if (c =? "-")%char then (true, r) else (false, s)
    | EmptyString => (false, s)
    end in
  match s1 with
  | String c r =>
      if is_digit c then
        let (int_part, r1) :=
          if (c =? "0")%char then ("0", r)
          else let (ds, r') := span_digits r in (String c ds, r') in
        let (frac, r2) := scan_frac r1 in
        let (expo, r3) := scan_exp r2 in
        match frac, expo with
        | EmptyString, EmptyString =>
            if too_many_digits rt int_part then Exc ValueError
            else Val (PInt (if neg : bool then (- digits_to_Z 0 int_part)%Z
                            else digits_to_Z 0 int_part), r3)
        | _, _ =>
            Val (PFloat ((if neg : bool then "-" else "") ++ int_part ++ frac ++ expo), r3)
        end
      else Exc JSONDecodeError
  | EmptyString => Exc JSONDecodeError
  end.

(** [dict] construction from the pairs of an object: a repeated key
    keeps its first position and takes the last value. *)
Fixpoint dict_set (d : list (string * pyval)) (k : string) (v : pyval)
  : list (string * pyval) :=
  match d with
  | [] => [(k, v)]
  | (k', v') :: r => if (k' =? k) then (k', v) :: r else (k', v') :: dict_set r k v
  end.

(** [dict.get(k)]: [None] here is "no such key". *)
Fixpoint dict_lookup (d : list (string * pyval)) (k : string) : option pyval :=
  match d with
  | [] => None
  | (k', v) :: r => if (k' =? k) then Some v else dict_lookup r k
  end.

Definition literals : list (string * pyval) :=
  [("null", PNone); ("true", PBool true); ("false", PBool false);
   ("NaN", PFloat "NaN"); ("Infinity", PFloat "Infinity");
   ("-Infinity", PFloat "-Infinity")].

Fixpoint match_literal (ls : list (string * pyval)) (s : string)
  : option (pyval * string) :=
  match ls with
  | [] => None
  | (name, v) :: r =>
      match strip_prefix name s with
      | Some rest => Some (v, rest)
      | None => match_literal r s
      end
  end.

(** What follows the character [c] when [s] starts with it. *)
Definition next_is (c : ascii) (s : string) : option string :=
  match s with
  | String c' r => if (c' =? c)%char then Some r else None
  | EmptyString => None
  end.

(** [scan_once] and the two container parsers.  [depth] is the number of
    nested calls still allowed; [fuel] bounds the recursion of the model
    and is never exhausted when [json_loads] supplies it (see
    [json_loads_returns]). *)
Fixpoint scan_once (rt : runtime) (fuel depth : nat) (s : string) {struct fuel}
  : res (pyval * string) :=
  match fuel with
  | O => Diverge
  | S f =>
      match s with
      | EmptyString => Exc JSONDecodeError
      | String c r =>
          if (c =? dquote)%char then
            match scanstring r with
            | Some (t, rest) => Val (PStr t, rest)
            | None => Exc JSONDecodeError
            end
          else if (c =? "{")%char then
            match depth with
            | O => Exc RecursionError
            | S dp =>
                match next_is "}" (skip_ws r) with
                | Some rest => Val (PDict [], rest)
                | None => parse_object rt f dp (skip_ws r) []
                end
            end
          else if (c =? "[")%char then
            match depth with
            | O => Exc RecursionError
            | S dp =>
                match next_is "]" (skip_ws r) with
                | Some rest => Val (PList [], rest)
                | None => parse_array rt f dp (skip_ws r) []
                end
            end
          else
            match match_literal literals s with
            | Some lit => Val lit
            | None => match_number rt s
            end
      end
  end
with parse_object (rt : runtime) (fuel depth : nat) (s : string)
       (acc : list (string * pyval)) {struct fuel} : res (pyval * string) :=
  match fuel with
  | O => Diverge
  | S f =>
      match next_is dquote s with
      | None => Exc JSONDecodeError
      | Some r =>
          match scanstring r with
          | None => Exc JSONDecodeError
          | Some (key, r1) =>
              match next_is ":" (skip_ws r1) with
              | None => Exc JSONDecodeError
              | Some r2 =>
                  match scan_once rt f depth (skip_ws r2) with
                  | Val (v, r3) =>
                      match next_is "}" (skip_ws r3), next_is "," (skip_ws r3) with
                      | Some rest, _ => Val (PDict (dict_set acc key v), rest)
                      | None, Some r4 =>
                          parse_object rt f depth (skip_ws r4) (dict_set acc key v)
                      | None, None => Exc JSONDecodeError
                      end
                  | Exc e => Exc e
                  | Diverge => Diverge
                  end
              end
          end
      end
  end
with parse_array (rt : runtime) (fuel depth : nat) (s : string)
       (acc : list pyval) {struct fuel} : res (pyval * string) :=
  match fuel with
  | O => Diverge
  | S f =>
      match scan_once rt f depth s with
      | Val (v, r1) =>
          match next_is "]" (skip_ws r1), next_is "," (skip_ws r1) with
          | Some rest, _ => Val (PList (rev (v :: acc)), rest)
          | None, Some r2 => parse_array rt f depth (skip_ws r2) (v :: acc)
          | None, None => Exc JSONDecodeError
          end
      | Exc e => Exc e
      | Diverge => Diverge
      end
  end.

(** [json.loads(s)]: one value between optional white space, and nothing
    after it. *)
Definition json_loads (rt : runtime) (s : string) : res pyval :=
  match scan_once rt (2 * String.length s + 1) (recursion_budget rt) (skip_ws s) with
  | Val (v, rest) =>
      match skip_ws rest with
      | EmptyString => Val v
      | String _ _ => Exc JSONDecodeError
      end
  | Exc e => Exc e
  | Diverge => Diverge
  end.

(** ** Formatting

    [repr] of the values above, and what an f-string field [{x}] inserts:
    the string itself for a [str], [repr] for the rest. *)
Fixpoint py_repr (rt : runtime) (v : pyval) : string :=
  match v with
  | PNone => "None"
  | PBool true => "True"
  | PBool false => "False"
  | PInt z => int_repr z
  | PFloat x => float_repr rt x
  | PStr s => str_repr rt s
  | PList l => "[" ++ join ", " (map (py_repr rt) l) ++ "]"
  | PDict d =>
      "{" ++ join ", " (map (fun kv => match kv with
                                       | (k, x) => str_repr rt k ++ ": " ++ py_repr rt x
                                       end) d) ++ "}"
  end.

Definition py_format (rt : runtime) (v : pyval) : string :=
  match v with
  | PStr s => s
  | _ => py_repr rt v
  end.

(** [x.get(key, default)]: only a [dict] has the method. *)
Definition py_get (x : pyval) (key : string) (default : pyval) : res pyval :=
  match x with
  | PDict d =>
      Val (match dict_lookup d key with
           | Some v => v
           | None => default
           end)
  | _ => Exc AttributeError
  end.

(** ** Requests, responses and the handler's effects *)

(** The module's only global: written once by [__main__]. *)
Record server_state : Type := { server_start_time : Q }.

(** What the clock shows while a request is handled: [time.time()] and
    [datetime.now().isoformat()]. *)
Record clock : Type := { time_time : Q; now_isoformat : string }.

(** A request as the handler sees it: [self.command], [self.path],
    [self.headers], and the bytes that [self.rfile] still holds, with
    whether the client closes its side after them. *)
Record request : Type := {
  command : string;
  path : string;
  headers : list (string * string);
  rfile : string;
  rfile_eof : bool
}.

(** What is handed to [self.wfile.write]: the bytes themselves, or, for
    [json.dumps(response).encode()], the value that is serialised. *)
Inductive payload : Type :=
| JsonText (v : pyval)
| Bytes (b : string).

(** The calls that build the response, in the order they are made. *)
Inductive event : Type :=
| SendResponse (status : Z)
| SendHeader (name value : string)
| EndHeaders
| WfileWrite (p : payload)
| SendError (status : Z).

(** A handler step: it reads and may write the global state, appends
    response events, and returns, raises or never returns. *)
Definition M (A : Type) : Type := server_state -> res A * server_state * list event.

Definition ret {A} (a : A) : M A := fun st => (Val a, st, []).

Definition bind {A B} (m : M A) (k : A -> M B) : M B :=
  fun st =>
    match m st with
    | (Val a, st1, out1) =>
        match k a st1 with
        | (r, st2, out2) => (r, st2, (out1 ++ out2)%list)
        end
    | (Exc e, st1, out1) => (Exc e, st1, out1)
    | (Diverge, st1, out1) => (Diverge, st1, out1)
    end.

Notation "x <- m ;; k" := (bind m (fun x => k))
  (at level 61, m at next level, right associativity).
Notation "m ;; k" := (bind m (fun _ => k))
  (at level 61, right associativity).

Definition lift {A} (r : res A) : M A := fun st => (r, st, []).
Definition emit (e : event) : M unit := fun st => (Val tt, st, [e]).
Definition read_global : M server_state := fun st => (Val st, st, []).
(** Assignment to the global; no handler makes one. *)
Definition write_global (st' : server_state) : M unit := fun _ => (Val tt, st', []).

Definition send_response (status : Z) : M unit := emit (SendResponse status).
Definition send_header (name value : string) : M unit := emit (SendHeader name value).
Definition end_headers : M unit := emit EndHeaders.
Definition wfile_write (p : payload) : M unit := emit (WfileWrite p).
Definition send_error (status : Z) : M unit := emit (SendError status).

Definition json_dumps (v : pyval) : payload := JsonText v.

(** [self.headers[name]]: the first header of that name, any case;
    [None] when there is none. *)
Fixpoint headers_getitem (h : list (string * string)) (name : string) : option string :=
  match h with
  | [] => None
  | (k, v) :: r =>
      if (lower_string k =? lower_string name) then Some v else headers_getitem r name
  end.

(** [self.rfile.read(n)] on the buffered reader: [n] bytes, fewer only at
    end of stream; all of the stream for [-1]; waits as long as bytes are
    missing and the stream is open. *)
Definition rfile_read (req : request) (n : Z) : res string :=
  if (n <? -1)%Z then Exc ValueError
  else if (n =? -1)%Z then
    if rfile_eof req then Val (rfile req) else Diverge
  else if (Z.to_nat n <=? String.length (rfile req))%nat then Val (take (Z.to_nat n) (rfile req))
  else if rfile_eof req then Val (rfile req)
  else Diverge.

(** ** [HealthCheckHandler] *)

Definition not_found : M unit :=
  send_response 404 ;;
  send_header "Content-type" "text/plain" ;;
  end_headers ;;
  wfile_write (Bytes "Not Found").

Definition json_head : M unit :=
  send_response 200 ;;
  send_header "Content-type" "application/json" ;;
  end_headers.

Definition do_GET (rt : runtime) (clk : clock) (req : request) : M unit :=
  if (path req =? "/health") then
    json_head ;;
    st <- read_global ;;
    let response := PDict
      [("status", PStr "healthy");
       ("timestamp", PStr (now_isoformat clk));
       ("service", PStr "test-environment");
       ("uptime", PInt (int_of_float (float_sub rt (time_time clk) (server_start_time st))));
       ("version", PStr "1.0.0")] in
    wfile_write (json_dumps response)
  else if (path req =? "/version") then
    json_head ;;
    let response := PDict
      [("current", PStr "1.0.0");
       ("available", PList [PStr "1.0.1"; PStr "1.1.0"; PStr "2.0.0"])] in
    wfile_write (json_dumps response)
  else if (path req =? "/info") then
    json_head ;;
    let response := PDict
      [("hostname", PStr "test-environment");
       ("os", PStr "Linux");
       ("platform", PStr "Docker");
       ("environment", PStr "test")] in
    wfile_write (json_dumps response)
  else if (path req =? "/metrics") then
    json_head ;;
    let response := PDict
      [("cpu_usage", PFloat "15.2");
       ("memory_usage", PFloat "45.7");
       ("disk_usage", PFloat "23.1");
       ("active_connections", PInt 3)] in
    wfile_write (json_dumps response)
  else not_found.

Definition do_POST (rt : runtime) (clk : clock) (req : request) : M unit :=
  if (path req =? "/restart") then
    json_head ;;
    let response := PDict
      [("status", PStr "success");
       ("message", PStr "Service restart initiated");
       ("timestamp", PStr (now_isoformat clk))] in
    wfile_write (json_dumps response)
  else if (path req =? "/upgrade") then
    content_length <- lift (py_int rt (headers_getitem (headers req) "Content-Length")) ;;
    post_data <- lift (rfile_read req content_length) ;;
    text <- lift (decode_utf8 post_data) ;;
    data <- lift (json_loads rt text) ;;
    json_head ;;
    version <- lift (py_get data "version" (PStr "unknown")) ;;
    let response := PDict
      [("status", PStr "success");
       ("message", PStr ("Upgrade to version " ++ py_format rt version ++ " initiated"));
       ("timestamp", PStr (now_isoformat clk))] in
    wfile_write (json_dumps response)
  else not_found.

(** The dispatch of [BaseHTTPRequestHandler]: the method [do_] followed
    by the command when the class has it, else error 501. *)
Definition handle_one_request (rt : runtime) (clk : clock) (req : request) : M unit :=
  if (command req =? "GET") then do_GET rt clk req
  else if (command req =? "POST") then do_POST rt clk req
  else send_error 501.

(** ** [__main__]

    The start time is taken once, then requests are served one after the
    other; a handler that raises ends its own request only, one that
    never returns stops the loop. *)
Definition main_init (clk : clock) : server_state :=
  {| server_start_time := time_time clk |}.

Fixpoint serve_forever (rt : runtime) (st : server_state) (reqs : list (clock * request))
  : server_state * list (res unit * list event) :=
  match reqs with
  | [] => (st, [])
  | (clk, req) :: rest =>
      match handle_one_request rt clk req st with
      | (Diverge, st1, out) => (st1, [(Diverge, out)])
      | (r, st1, out) =>
          match serve_forever rt st1 rest with
          | (st2, log) => (st2, (r, out) :: log)
          end
      end
  end.

Definition main (rt : runtime) (start : clock) (reqs : list (clock * request))
  : server_state * list (res unit * list event) :=
  serve_forever rt (main_init start) reqs.

(** ** Sample inputs *)

(** A runtime to evaluate examples with.  Its [float_repr] and
    [str_repr] are right on the texts the examples use (a shortest
    decimal, a string without quotes or escapes); its subtraction is
    exact. *)
Definition sample_runtime : runtime :=
  {| recursion_budget := 900;
     int_max_str_digits := 4300;
     float_repr := fun s => s;
     str_repr := fun s => "'" ++ s ++ "'";
     float_sub := Qminus |}.

Definition sample_clock : clock :=
  {| time_time := 1700000012 # 1; now_isoformat := "2023-11-14T22:13:32.000000" |}.

Definition sample_state : server_state := {| server_start_time := 1700000000 # 1 |}.

Definition post_upgrade (hs : list (string * string)) (body : string) : request :=
  {| command := "POST"; path := "/upgrade"; headers := hs; rfile := body; rfile_eof := false |}.

(** The request bodies [{"version":"2.0.0"}], [{"version": "1.1.0"}],
    [{"version": 2}] and [{"name":"x"}]. *)
Definition body_2_0_0 : string := "{" ++ quoted "version" ++ ":" ++ quoted "2.0.0" ++ "}".
Definition body_1_1_0 : string := "{" ++ quoted "version" ++ ": " ++ quoted "1.1.0" ++ "}".
Definition body_number : string := "{" ++ quoted "version" ++ ": 2}".
Definition body_name : string := "{" ++ quoted "name" ++ ":" ++ quoted "x" ++ "}".

(** ** Notions used in the statements *)

(** The paths that the branches of [do_GET] and of [do_POST] test. *)
Definition get_routes : list string := ["/health"; "/version"; "/info"; "/metrics"].
Definition post_routes : list string := ["/restart"; "/upgrade"].

Definition routes (cmd : string) : list string :=
  if (cmd =? "GET") then get_routes
  else if (cmd =? "POST") then post_routes
  else [].

Definition not_found_response : list event :=
  [SendResponse 404; SendHeader "Content-type" "text/plain"; EndHeaders;
   WfileWrite (Bytes "Not Found")].

(** The response of GET /metrics. *)
Definition metrics_response : list event :=
  [SendResponse 200; SendHeader "Content-type" "application/json"; EndHeaders;
   WfileWrite (JsonText (PDict
     [("cpu_usage", PFloat "15.2");
      ("memory_usage", PFloat "45.7");
      ("disk_usage", PFloat "23.1");
      ("active_connections", PInt 3)]))].

(** [int(time.time() - server_start_time)], as [do_GET] computes it. *)
Definition uptime (rt : runtime) (clk : clock) (st : server_state) : Z :=
  int_of_float (float_sub rt (time_time clk) (server_start_time st)).

(** A step that leaves the global state as it found it. *)
Definition preserves {A} (m : M A) : Prop :=
  forall st, snd (fst (m st)) = st.

(** Fuel: [scan_once] needs more than twice the length of its input, the
    container parsers one more; whatever is returned is shorter than the
    input. *)
Definition scan_ok (rt : runtime) (fuel : nat) : Prop :=
  forall depth s,
    (scan_once rt fuel depth s = Diverge -> fuel <= 2 * String.length s)%nat
    /\ (forall v r, scan_once rt fuel depth s = Val (v, r) ->
                    String.length r < String.length s)%nat.

Definition object_ok (rt : runtime) (fuel : nat) : Prop :=
  forall depth s acc,
    (parse_object rt fuel depth s acc = Diverge -> fuel <= 2 * String.length s + 1)%nat
    /\ (forall v r, parse_object rt fuel depth s acc = Val (v, r) ->
                    String.length r < String.length s)%nat.

Definition array_ok (rt : runtime) (fuel : nat) : Prop :=
  forall depth s acc,
    (parse_array rt fuel depth s acc = Diverge -> fuel <= 2 * String.length s + 1)%nat
    /\ (forall v r, parse_array rt fuel depth s acc = Val (v, r) ->
                    String.length r < String.length s)%nat.

(** ** Further notions

    Used by the properties that follow the claims. *)

Definition json_head_events : list event :=
  [SendResponse 200; SendHeader "Content-type" "application/json"; EndHeaders].

(** A complete JSON response with body [v]. *)
Definition json_response (v : pyval) : list event :=
  (json_head_events ++ [WfileWrite (JsonText v)])%list.

(** How a request is answered: how the handler ends, and what it has
    sent by then. *)
Definition answer (rt : runtime) (clk : clock) (req : request) (st : server_state)
  : res unit * list event :=
  (fst (fst (handle_one_request rt clk req st)), snd (handle_one_request rt clk req st)).

(** The /upgrade branch of [do_POST] from [post_data.decode] on. *)
Definition upgrade_from_body (rt : runtime) (clk : clock) (post_data : string) : M unit :=
  text <- lift (decode_utf8 post_data) ;;
  data <- lift (json_loads rt text) ;;
  json_head ;;
  version <- lift (py_get data "version" (PStr "unknown")) ;;
  let response := PDict
    [("status", PStr "success");
     ("message", PStr ("Upgrade to version " ++ py_format rt version ++ " initiated"));
     ("timestamp", PStr (now_isoformat clk))] in
  wfile_write (json_dumps response).

(** The request [req] with another stream behind it. *)
Definition with_stream (req : request) (bytes : string) (eof : bool) : request :=
  {| command := command req; path := path req; headers := headers req;
     rfile := bytes; rfile_eof := eof |}.

(** The shapes an answer can have. *)
Inductive served : res unit -> list event -> Prop :=
| served_json (v : pyval) : served (Val tt) (json_response v)
| served_not_found : served (Val tt) not_found_response
| served_unsupported : served (Val tt) [SendError 501]
| served_nothing (e : exn) : e <> AttributeError -> served (Exc e) []
| served_blocked : served Diverge []
| served_headers_only : served (Exc AttributeError) json_head_events.

(** The exceptions [json.loads] raises. *)
Definition loads_error (e : exn) : Prop :=
  e = JSONDecodeError \/ e = ValueError \/ e = RecursionError.

(** The answers to the requests [reqs], each handled on its own in the
    state [st]. *)
Definition answers (rt : runtime) (st : server_state) (reqs : list (clock * request))
  : list (res unit * list event) :=
  map (fun cr => answer rt (fst cr) (snd cr) st) reqs.

(** The requests of [reqs] up to the first one whose handler never
    returns, that one included. *)
Fixpoint until_blocked (rt : runtime) (st : server_state) (reqs : list (clock * request))
  : list (clock * request) :=
  match reqs with
  | [] => []
  | cr :: rest =>
      match fst (answer rt (fst cr) (snd cr) st) with
      | Diverge => [cr]
      | _ => cr :: until_blocked rt st rest
      end
  end.

(** A request for /upgrade that carries [body] and announces its
    length, in decimal, in its first [Content-Length] header. *)
Definition upgrade_request (hs : list (string * string)) (body : string) (eof : bool)
  : request :=
  {| command := "POST"; path := "/upgrade";
     headers := ("Content-Length", int_repr (Z.of_nat (String.length body))) :: hs;
     rfile := body; rfile_eof := eof |}.

(** A printable ASCII character other than the quotation mark and the
    backslash, and a text of such characters: what a JSON string holds
    as it stands. *)
Definition plain_char (c : ascii) : bool :=
  in_range 32 126 c && negb (c =? dquote)%char && negb (c =? "\")%char.

Fixpoint plain (s : string) : bool :=
  match s with
  | EmptyString => true
  | String c r => plain_char c && plain r
  end.

(** The body [{"version":"s"}]. *)
Definition version_body (s : string) : string :=
  "{" ++ quoted "version" ++ ":" ++ quoted s ++ "}".

(** The body [{"force": true, "version":"2.0.0", "notes": [1, 2]}]. *)
Definition body_with_fields : string :=
  "{" ++ quoted "force" ++ ": true, " ++ quoted "version" ++ ":"
  ++ quoted "2.0.0" ++ ", " ++ quoted "notes" ++ ": [1, 2]}".

(** ** Tactics *)

(** Case analysis on the innermost scrutinee of the matches in [H]. *)
Ltac break_step H :=
  match type of H with
  | context [match ?x with _ => _ end] =>
      lazymatch x with
      | context [match _ with _ => _ end] => fail
      | _ => destruct x eqn:?
      end
  end.

Ltac break_hyp H := repeat break_step H.

(** * Properties *)

(** ** The model of [json.loads] always returns *)

Lemma skip_ws_length (s : string) : (String.length (skip_ws s) <= String.length s)%nat.
Proof.
  induction s as [|c r IH]; simpl; [lia|].
  destruct (is_ws c); simpl; lia.
Qed.

Lemma span_digits_length (s ds r : string) :
  span_digits s = (ds, r) -> (String.length r <= String.length s)%nat.
Proof.
  revert ds r; induction s as [|c s IH]; simpl; intros ds r H.
  - inversion H; subst; simpl; lia.
  - destruct (is_digit c).
    + destruct (span_digits s) as [ds' r'] eqn:E. inversion H; subst.
      specialize (IH _ _ eq_refl). lia.
    + inversion H; subst; simpl; lia.
Qed.

Lemma strip_prefix_length (p s r : string) :
  strip_prefix p s = Some r -> (String.length r + String.length p = String.length s)%nat.
Proof.
  revert s r; induction p as [|a p IH]; simpl; intros s r H.
  - inversion H; subst; lia.
  - destruct s as [|b s]; [discriminate|].
    destruct (a =? b)%char; [|discriminate].
    apply IH in H. simpl. lia.
Qed.

Lemma match_literal_shorter (ls : list (string * pyval)) (s : string) (v : pyval) (r : string) :
  Forall (fun p => (0 < String.length (fst p))%nat) ls ->
  match_literal ls s = Some (v, r) -> (String.length r < String.length s)%nat.
Proof.
  induction ls as [|[name x] ls IH]; intros Hne H; [discriminate|].
  inversion Hne as [|? ? Hname Hrest]; subst. cbn [match_literal] in H.
  destruct (strip_prefix name s) as [rest|] eqn:E.
  - apply strip_prefix_length in E. inversion H; subst. simpl in Hname. lia.
  - auto.
Qed.

Lemma match_literal_length (s : string) (v : pyval) (r : string) :
  match_literal literals s = Some (v, r) -> (String.length r < String.length s)%nat.
Proof.
  apply match_literal_shorter.
  unfold literals. repeat constructor.
Qed.

Lemma prepend_some (p : string) (x : option (string * string)) (t r : string) :
  prepend p x = Some (t, r) -> exists t', x = Some (t', r).
Proof.
  destruct x as [[t' r']|]; simpl; [|discriminate].
  intros H; inversion H; subst; eauto.
Qed.

Lemma scanstring_length_aux (n : nat) :
  forall s t r, (String.length s <= n)%nat ->
                scanstring s = Some (t, r) -> (String.length r < String.length s)%nat.
Proof.
  induction n as [|n IH]; intros s t r Hn H.
  - destruct s; simpl in *; [discriminate|lia].
  - destruct s as [|c s]; [discriminate|].
    simpl in Hn. cbn [scanstring] in H. cbv zeta in H.
    break_hyp H; try discriminate;
      try (apply prepend_some in H; destruct H as [t' H];
           apply IH in H; simpl in *; lia).
    inversion H; subst; simpl; lia.
Qed.

Lemma scanstring_length (s t r : string) :
  scanstring s = Some (t, r) -> (String.length r < String.length s)%nat.
Proof. apply (scanstring_length_aux (String.length s)); lia. Qed.

Lemma scan_frac_length (s f r : string) :
  scan_frac s = (f, r) -> (String.length r <= String.length s)%nat.
Proof.
  unfold scan_frac. intros H.
  break_hyp H;
    repeat match goal with
           | E : span_digits _ = (_, _) |- _ => apply span_digits_length in E
           end;
    inversion H; subst; simpl in *; lia.
Qed.

Lemma scan_exp_length (s f r : string) :
  scan_exp s = (f, r) -> (String.length r <= String.length s)%nat.
Proof.
  unfold scan_exp. intros H.
  break_hyp H;
    repeat match goal with
           | E : span_digits _ = (_, _) |- _ => apply span_digits_length in E
           | E : (_, _) = (_, _) |- _ => inversion E; subst; clear E
           end;
    simpl in *; lia.
Qed.

Lemma match_number_length (rt : runtime) (s : string) (v : pyval) (r : string) :
  match_number rt s = Val (v, r) -> (String.length r < String.length s)%nat.
Proof.
  unfold match_number. intros H.
  destruct s as [|c0 s0]; [discriminate|].
  break_hyp H; try discriminate;
    repeat match goal with
           | E : span_digits _ = (_, _) |- _ => apply span_digits_length in E
           | E : scan_frac _ = (_, _) |- _ => apply scan_frac_length in E
           | E : scan_exp _ = (_, _) |- _ => apply scan_exp_length in E
           | E : (_, _) = (_, _) |- _ => inversion E; subst; clear E
           end;
    inversion H; subst; simpl in *; lia.
Qed.

Lemma match_number_returns (rt : runtime) (s : string) : match_number rt s <> Diverge.
Proof.
  unfold match_number. intros H. break_hyp H; discriminate.
Qed.

Lemma next_is_length (c : ascii) (s r : string) :
  next_is c s = Some r -> S (String.length r) = String.length s.
Proof.
  destruct s as [|c' s]; simpl; [discriminate|].
  destruct (c' =? c)%char; [|discriminate].
  intros H; inversion H; subst; reflexivity.
Qed.

Ltac length_facts :=
  repeat match goal with
         | E : scanstring _ = Some (_, _) |- _ => apply scanstring_length in E
         | E : next_is _ _ = Some _ |- _ => apply next_is_length in E
         | E : match_literal literals _ = Some (_, _) |- _ => apply match_literal_length in E
         | E : match_number _ _ = Val (_, _) |- _ => apply match_number_length in E
         | E : match_number _ _ = Diverge |- _ => apply match_number_returns in E; contradiction
         end;
  repeat match goal with
         | |- context [skip_ws ?x] =>
             lazymatch goal with
             | _ : (String.length (skip_ws x) <= String.length x)%nat |- _ => fail
             | _ => pose proof (skip_ws_length x)
             end
         | _ : context [skip_ws ?x] |- _ =>
             lazymatch goal with
             | _ : (String.length (skip_ws x) <= String.length x)%nat |- _ => fail
             | _ => pose proof (skip_ws_length x)
             end
         end.

Lemma scan_fuel (rt : runtime) (fuel : nat) :
  scan_ok rt fuel /\ object_ok rt fuel /\ array_ok rt fuel.
Proof.
  induction fuel as [|f [IHs [IHo IHa]]].
  - repeat split; simpl; intros; try discriminate; lia.
  - assert (Hs : forall d x, scan_once rt f d x = Diverge -> (f <= 2 * String.length x)%nat)
      by (intros d x; apply (IHs d x)).
    assert (Hs' : forall d x v r, scan_once rt f d x = Val (v, r) ->
                                  (String.length r < String.length x)%nat)
      by (intros d x; apply (IHs d x)).
    assert (Ho : forall d x a, parse_object rt f d x a = Diverge ->
                               (f <= 2 * String.length x + 1)%nat)
      by (intros d x a; apply (IHo d x a)).
    assert (Ho' : forall d x a v r, parse_object rt f d x a = Val (v, r) ->
                                    (String.length r < String.length x)%nat)
      by (intros d x a; apply (IHo d x a)).
    assert (Ha : forall d x a, parse_array rt f d x a = Diverge ->
                               (f <= 2 * String.length x + 1)%nat)
      by (intros d x a; apply (IHa d x a)).
    assert (Ha' : forall d x a v r, parse_array rt f d x a = Val (v, r) ->
                                    (String.length r < String.length x)%nat)
      by (intros d x a; apply (IHa d x a)).
    clear IHs IHo IHa.
    repeat split; intros;
      match goal with
      | H : _ = _ |- _ =>
          cbn [scan_once parse_object parse_array] in H;
          break_hyp H; try discriminate;
          repeat match goal with
                 | E : scan_once _ _ _ _ = Diverge |- _ => apply Hs in E
                 | E : scan_once _ _ _ _ = Val _ |- _ => apply Hs' in E
                 | E : parse_object _ _ _ _ _ = Diverge |- _ => apply Ho in E
                 | E : parse_object _ _ _ _ _ = Val _ |- _ => apply Ho' in E
                 | E : parse_array _ _ _ _ _ = Diverge |- _ => apply Ha in E
                 | E : parse_array _ _ _ _ _ = Val _ |- _ => apply Ha' in E
                 end;
          try (inversion H; subst);
          length_facts; simpl in *; lia
      end.
Qed.

(** [json.loads] of the model returns or raises on every input. *)
Lemma json_loads_returns (rt : runtime) (s : string) : json_loads rt s <> Diverge.
Proof.
  unfold json_loads. intros H.
  destruct (scan_once rt (2 * String.length s + 1) (recursion_budget rt) (skip_ws s))
    as [[v r]| |] eqn:E.
  - destruct (skip_ws r); discriminate.
  - discriminate.
  - apply (proj1 (scan_fuel rt _)) in E.
    pose proof (skip_ws_length s). lia.
Qed.

(** ** The model on small inputs *)

Example loads_object :
  json_loads sample_runtime
    (" { " ++ quoted "a" ++ " : [1, 2.5e3, -0, true, null, " ++ quoted "x\né" ++ "] , "
     ++ quoted "b" ++ ": {} } ")
  = Val (PDict [("a", PList [PInt 1; PFloat "2.5e3"; PInt 0; PBool true; PNone;
                             PStr (String "x" (String "010" (String "195" (String "169" ""))))]);
                ("b", PDict [])]).
Proof. vm_compute. reflexivity. Qed.

Example loads_repeated_key :
  json_loads sample_runtime
    ("{" ++ quoted "k" ++ ": 1, " ++ quoted "j" ++ ": 2, " ++ quoted "k" ++ ": 3}")
  = Val (PDict [("k", PInt 3); ("j", PInt 2)]).
Proof. vm_compute. reflexivity. Qed.

Example loads_escapes :
  json_loads sample_runtime (quoted "\ud83d\ude00 \u00e9 \ud83d")
  = Val (PStr (String "240" (String "159" (String "152" (String "128" (String "032" (String "195" (String "169" (String "032" (String "237" (String "160" (String "189" "")))))))))))).
Proof. vm_compute. reflexivity. Qed.

Example loads_rejects :
  map (json_loads sample_runtime)
    [""; " "; "not json"; "[1,]"; "[1 2]"; "01"; "-"; "1.e5"; "{" ++ quoted "a" ++ ":1,}"; "{a:1}";
     String dquote "abc"; "nul"; "[1] x"]
  = repeat (Exc JSONDecodeError) 13.
Proof. vm_compute. reflexivity. Qed.

Example loads_depth :
  json_loads {| recursion_budget := 2; int_max_str_digits := 0;
                float_repr := fun x => x; str_repr := fun x => x; float_sub := Qminus |}
    "[[[]]]" = Exc RecursionError.
Proof. vm_compute. reflexivity. Qed.

Example int_of_header :
  map (py_int sample_runtime) [None; Some "19"; Some " +1_0 "; Some "1__0"; Some ""; Some "-1"; Some "0x10"]
  = [Exc TypeError; Val 19%Z; Val 10%Z; Exc ValueError; Exc ValueError; Val (-1)%Z; Exc ValueError].
Proof. vm_compute. reflexivity. Qed.

Example int_repr_decimal :
  map int_repr [0; 7; -12; 4300]%Z = ["0"; "7"; "-12"; "4300"].
Proof. vm_compute. reflexivity. Qed.

Example upgrade_blocks_on_short_body :
  handle_one_request sample_runtime sample_clock
    (post_upgrade [("Content-Length", "5")] "{}") sample_state
  = (Diverge, sample_state, []).
Proof. vm_compute. reflexivity. Qed.

Example int_of_float_truncates :
  map int_of_float [7 # 2; -7 # 2; 0 # 1; 12 # 1; -1 # 3]%Q = [3; -3; 0; 12; 0]%Z.
Proof. vm_compute. reflexivity. Qed.

(** ** POST /upgrade *)

Lemma take_all (s : string) : take (String.length s) s = s.
Proof. induction s as [|c s IH]; simpl; [reflexivity|]. now rewrite IH. Qed.

(** Reading as many bytes as the stream holds returns them all. *)
Lemma rfile_read_all (req : request) :
  rfile_read req (Z.of_nat (String.length (rfile req))) = Val (rfile req).
Proof.
  unfold rfile_read.
  destruct (Z.ltb_spec (Z.of_nat (String.length (rfile req))) (-1)); [lia|].
  destruct (Z.eqb_spec (Z.of_nat (String.length (rfile req))) (-1)); [lia|].
  rewrite Nat2Z.id, Nat.leb_refl, take_all. reflexivity.
Qed.

Section Upgrade.

Variables (rt : runtime) (clk : clock) (req : request) (st : server_state).
Variables (n : Z) (body : string).

(** A POST request to /upgrade whose [Content-Length] header converts
    to [n], whose stream yields [body] for [read(n)], and whose body
    is UTF-8. *)
Hypothesis Hcommand : command req = "POST".
Hypothesis Hpath : path req = "/upgrade".
Hypothesis Hlength : py_int rt (headers_getitem (headers req) "Content-Length") = Val n.
Hypothesis Hread : rfile_read req n = Val body.
Hypothesis Hutf8 : decode_utf8 body = Val body.

(** What is left of the handler once the body has been read. *)
Lemma upgrade_after_read :
  handle_one_request rt clk req st =
  (data <- lift (json_loads rt body) ;;
   json_head ;;
   version <- lift (py_get data "version" (PStr "unknown")) ;;
   wfile_write (json_dumps (PDict
     [("status", PStr "success");
      ("message", PStr ("Upgrade to version " ++ py_format rt version ++ " initiated"));
      ("timestamp", PStr (now_isoformat clk))]))) st.
Proof.
  unfold handle_one_request, do_POST. rewrite Hcommand, Hpath. simpl.
  unfold bind at 1. unfold lift at 1. rewrite Hlength.
  unfold bind at 1. unfold lift at 1. rewrite Hread.
  unfold bind at 1. unfold lift at 1. rewrite Hutf8.
  destruct (bind _ _ st) as [[r st'] out] eqn:E. simpl.
  destruct r; reflexivity.
Qed.

Lemma upgrade_of_dict (d : list (string * pyval)) :
  json_loads rt body = Val (PDict d) ->
  handle_one_request rt clk req st =
  (Val tt, st,
   [SendResponse 200; SendHeader "Content-type" "application/json"; EndHeaders;
    WfileWrite (JsonText (PDict
      [("status", PStr "success");
       ("message", PStr ("Upgrade to version "
                         ++ py_format rt (match dict_lookup d "version" with
                                          | Some v => v
                                          | None => PStr "unknown"
                                          end)
                         ++ " initiated"));
       ("timestamp", PStr (now_isoformat clk))]))]).
Proof.
  intros H. rewrite upgrade_after_read.
  unfold bind at 1. unfold lift at 1. rewrite H. reflexivity.
Qed.

Lemma upgrade_of_error (e : exn) :
  json_loads rt body = Exc e ->
  handle_one_request rt clk req st = (Exc e, st, []).
Proof.
  intros H. rewrite upgrade_after_read.
  unfold bind at 1. unfold lift at 1. rewrite H. reflexivity.
Qed.

Lemma upgrade_of_other (v : pyval) :
  json_loads rt body = Val v ->
  (forall d, v <> PDict d) ->
  handle_one_request rt clk req st =
  (Exc AttributeError, st,
   [SendResponse 200; SendHeader "Content-type" "application/json"; EndHeaders]).
Proof.
  intros H Hv. rewrite upgrade_after_read.
  unfold bind at 1. unfold lift at 1. rewrite H.
  destruct v; try reflexivity. exfalso. eapply Hv; reflexivity.
Qed.

End Upgrade.

(** C1, as stated, fails: with [Content-Length: 0] the empty body is not
    JSON and [json.loads] raises before anything is sent; without the
    header [int(None)] raises.  Neither request gets the 200 response
    with the message "Upgrade to version unknown initiated". *)
Lemma upgrade_empty_body_raises :
  let zero := post_upgrade [("Content-Length", "0")] "" in
  let missing := post_upgrade [] "" in
  let reply := (Val tt, sample_state,
                [SendResponse 200; SendHeader "Content-type" "application/json"; EndHeaders;
                 WfileWrite (JsonText (PDict
                   [("status", PStr "success");
                    ("message", PStr "Upgrade to version unknown initiated");
                    ("timestamp", PStr (now_isoformat sample_clock))]))]) in
  handle_one_request sample_runtime sample_clock zero sample_state
    = (Exc JSONDecodeError, sample_state, [])
  /\ handle_one_request sample_runtime sample_clock missing sample_state
    = (Exc TypeError, sample_state, [])
  /\ handle_one_request sample_runtime sample_clock zero sample_state <> reply
  /\ handle_one_request sample_runtime sample_clock missing sample_state <> reply.
Proof.
  cbv zeta. repeat split; try (vm_compute; reflexivity); vm_compute; discriminate.
Qed.

(** C1 (amended): a POST request to /upgrade whose body, read to the
    length its [Content-Length] header gives, is a JSON object without a
    "version" field is answered with status 200 and a JSON body whose
    message is "Upgrade to version unknown initiated".  A request without
    a [Content-Length] header, and one whose read yields no bytes, is not
    answered: the handler raises before it sends anything. *)
Theorem upgrade_without_version (rt : runtime) (clk : clock) (req : request)
    (st : server_state) :
  command req = "POST" ->
  path req = "/upgrade" ->
  (forall n body d,
      py_int rt (headers_getitem (headers req) "Content-Length") = Val n ->
      rfile_read req n = Val body ->
      decode_utf8 body = Val body ->
      json_loads rt body = Val (PDict d) ->
      dict_lookup d "version" = None ->
      handle_one_request rt clk req st =
      (Val tt, st,
       [SendResponse 200; SendHeader "Content-type" "application/json"; EndHeaders;
        WfileWrite (JsonText (PDict
          [("status", PStr "success");
           ("message", PStr "Upgrade to version unknown initiated");
           ("timestamp", PStr (now_isoformat clk))]))]))
  /\ (headers_getitem (headers req) "Content-Length" = None ->
      handle_one_request rt clk req st = (Exc TypeError, st, []))
  /\ (forall n,
      py_int rt (headers_getitem (headers req) "Content-Length") = Val n ->
      rfile_read req n = Val "" ->
      handle_one_request rt clk req st = (Exc JSONDecodeError, st, [])).
Proof.
  intros Hc Hp. repeat split.
  - intros n body d Hn Hr Hu Hj Hd.
    rewrite (upgrade_of_dict rt clk req st n body Hc Hp Hn Hr Hu d Hj), Hd.
    reflexivity.
  - intros Hnone. unfold handle_one_request, do_POST.
    rewrite Hc, Hp, Hnone. reflexivity.
  - intros n Hn Hr.
    apply (upgrade_of_error rt clk req st n "" Hc Hp Hn Hr eq_refl).
    reflexivity.
Qed.

Lemma upgrade_without_version_witness :
  let req := post_upgrade [("Content-Length", "12")] body_name in
  command req = "POST" /\ path req = "/upgrade"
  /\ handle_one_request sample_runtime sample_clock req sample_state =
     (Val tt, sample_state,
      [SendResponse 200; SendHeader "Content-type" "application/json"; EndHeaders;
       WfileWrite (JsonText (PDict
         [("status", PStr "success");
          ("message", PStr "Upgrade to version unknown initiated");
          ("timestamp", PStr "2023-11-14T22:13:32.000000")]))]).
Proof.
  cbv zeta. split; [reflexivity|]. split; [reflexivity|].
  refine (proj1 (upgrade_without_version sample_runtime sample_clock
                   (post_upgrade [("Content-Length", "12")] body_name)
                   sample_state eq_refl eq_refl)
            12%Z body_name [("name", PStr "x")] _ _ _ _ _);
    vm_compute; reflexivity.
Defined.

(** C2, as stated, fails: a body that is not JSON makes [json.loads]
    raise before anything is sent, and a JSON body that is not an object
    makes [data.get] raise after the headers; neither is answered with
    the message for "unknown". *)
Lemma upgrade_bad_body_raises :
  let malformed := post_upgrade [("Content-Length", "8")] "not json" in
  let array := post_upgrade [("Content-Length", "3")] "[1]" in
  let reply := (Val tt, sample_state,
                [SendResponse 200; SendHeader "Content-type" "application/json"; EndHeaders;
                 WfileWrite (JsonText (PDict
                   [("status", PStr "success");
                    ("message", PStr "Upgrade to version unknown initiated");
                    ("timestamp", PStr (now_isoformat sample_clock))]))]) in
  handle_one_request sample_runtime sample_clock malformed sample_state
    = (Exc JSONDecodeError, sample_state, [])
  /\ handle_one_request sample_runtime sample_clock array sample_state
    = (Exc AttributeError, sample_state,
       [SendResponse 200; SendHeader "Content-type" "application/json"; EndHeaders])
  /\ handle_one_request sample_runtime sample_clock malformed sample_state <> reply
  /\ handle_one_request sample_runtime sample_clock array sample_state <> reply.
Proof.
  cbv zeta. repeat split; try (vm_compute; reflexivity); vm_compute; discriminate.
Qed.

(** C2 (amended): for a POST request to /upgrade whose body has been
    read and decoded, the outcome follows [json.loads] of the body.  A
    JSON object is answered with status 200 and the message "Upgrade to
    version X initiated", X being the rendering of its "version" field,
    or "unknown" when it has none.  A body that is not JSON is not
    answered: the exception of [json.loads] leaves the handler before
    anything is sent.  A JSON value that is not an object gets the status
    line 200 and the headers, then [AttributeError], and no body.  (The
    last case of the match never arises: [json_loads_returns].) *)
Theorem upgrade_version_or_failure (rt : runtime) (clk : clock) (req : request)
    (st : server_state) (n : Z) (body : string) :
  command req = "POST" ->
  path req = "/upgrade" ->
  py_int rt (headers_getitem (headers req) "Content-Length") = Val n ->
  rfile_read req n = Val body ->
  decode_utf8 body = Val body ->
  handle_one_request rt clk req st =
  match json_loads rt body with
  | Val (PDict d) =>
      (Val tt, st,
       [SendResponse 200; SendHeader "Content-type" "application/json"; EndHeaders;
        WfileWrite (JsonText (PDict
          [("status", PStr "success");
           ("message", PStr ("Upgrade to version "
                             ++ match dict_lookup d "version" with
                                | Some v => py_format rt v
                                | None => "unknown"
                                end
                             ++ " initiated"));
           ("timestamp", PStr (now_isoformat clk))]))])
  | Val _ =>
      (Exc AttributeError, st,
       [SendResponse 200; SendHeader "Content-type" "application/json"; EndHeaders])
  | Exc e => (Exc e, st, [])
  | Diverge => (Diverge, st, [])
  end.
Proof.
  intros Hc Hp Hn Hr Hu.
  destruct (json_loads rt body) as [v|e|] eqn:Hj.
  - destruct v;
      try (apply (upgrade_of_other rt clk req st n body Hc Hp Hn Hr Hu _ Hj);
           intros d' Hd; discriminate Hd).
    rewrite (upgrade_of_dict rt clk req st n body Hc Hp Hn Hr Hu d Hj).
    destruct (dict_lookup d "version"); reflexivity.
  - apply (upgrade_of_error rt clk req st n body Hc Hp Hn Hr Hu e Hj).
  - exfalso. exact (json_loads_returns rt body Hj).
Qed.

Lemma upgrade_version_or_failure_witness :
  let req := post_upgrade [("Content-Length", "20")] body_1_1_0 in
  command req = "POST" /\ path req = "/upgrade"
  /\ py_int sample_runtime (headers_getitem (headers req) "Content-Length") = Val 20%Z
  /\ rfile_read req 20 = Val body_1_1_0
  /\ decode_utf8 body_1_1_0 = Val body_1_1_0
  /\ handle_one_request sample_runtime sample_clock req sample_state =
     (Val tt, sample_state,
      [SendResponse 200; SendHeader "Content-type" "application/json"; EndHeaders;
       WfileWrite (JsonText (PDict
         [("status", PStr "success");
          ("message", PStr "Upgrade to version 1.1.0 initiated");
          ("timestamp", PStr "2023-11-14T22:13:32.000000")]))]).
Proof.
  cbv zeta. repeat (split; [reflexivity|]).
  exact (upgrade_version_or_failure sample_runtime sample_clock
           (post_upgrade [("Content-Length", "20")] body_1_1_0)
           sample_state 20%Z body_1_1_0
           eq_refl eq_refl eq_refl eq_refl eq_refl).
Defined.

(** C6: a POST request to /upgrade whose body is the text
    [{"version":"2.0.0"}], with [Content-Length] equal to the length of
    the body, is answered with status 200, [Content-type:
    application/json], and a JSON body with status "success" and message
    "Upgrade to version 2.0.0 initiated".  (The interpreter must be able
    to enter one nested call, for the object.) *)
Theorem upgrade_to_2_0_0 (rt : runtime) (clk : clock) (req : request)
    (st : server_state) :
  command req = "POST" ->
  path req = "/upgrade" ->
  rfile req = body_2_0_0 ->
  py_int rt (headers_getitem (headers req) "Content-Length")
    = Val (Z.of_nat (String.length (rfile req))) ->
  recursion_budget rt <> 0%nat ->
  handle_one_request rt clk req st =
  (Val tt, st,
   [SendResponse 200; SendHeader "Content-type" "application/json"; EndHeaders;
    WfileWrite (JsonText (PDict
      [("status", PStr "success");
       ("message", PStr "Upgrade to version 2.0.0 initiated");
       ("timestamp", PStr (now_isoformat clk))]))]).
Proof.
  intros Hc Hp Hb Hn Hbudget.
  assert (Hj : json_loads rt (rfile req) = Val (PDict [("version", PStr "2.0.0")])).
  { rewrite Hb. unfold json_loads.
    destruct (recursion_budget rt) as [|dp]; [contradiction|]. reflexivity. }
  assert (Hu : decode_utf8 (rfile req) = Val (rfile req)) by (rewrite Hb; reflexivity).
  rewrite (upgrade_of_dict rt clk req st _ (rfile req) Hc Hp Hn (rfile_read_all req) Hu _ Hj).
  reflexivity.
Qed.

Lemma upgrade_to_2_0_0_witness :
  let req := post_upgrade [("Content-Length", "19")] body_2_0_0 in
  command req = "POST" /\ path req = "/upgrade"
  /\ rfile req = body_2_0_0
  /\ py_int sample_runtime (headers_getitem (headers req) "Content-Length")
     = Val (Z.of_nat (String.length (rfile req)))
  /\ recursion_budget sample_runtime <> 0%nat
  /\ handle_one_request sample_runtime sample_clock req sample_state =
     (Val tt, sample_state,
      [SendResponse 200; SendHeader "Content-type" "application/json"; EndHeaders;
       WfileWrite (JsonText (PDict
         [("status", PStr "success");
          ("message", PStr "Upgrade to version 2.0.0 initiated");
          ("timestamp", PStr "2023-11-14T22:13:32.000000")]))]).
Proof.
  cbv zeta. repeat (split; [first [reflexivity | discriminate]|]).
  apply (upgrade_to_2_0_0 sample_runtime sample_clock
           (post_upgrade [("Content-Length", "19")] body_2_0_0)
           sample_state); first [reflexivity | discriminate].
Defined.

(** C10: a POST request to /upgrade whose body is a JSON object with a
    "version" field gets the message "Upgrade to version X initiated"
    where X is what the f-string inserts for the field's value, whatever
    its type: the text itself for a string, [repr] for the rest.  For
    the number 2 that is "2". *)
Theorem upgrade_any_version (rt : runtime) (clk : clock) (req : request)
    (st : server_state) (n : Z) (body : string) (d : list (string * pyval)) (v : pyval) :
  command req = "POST" ->
  path req = "/upgrade" ->
  py_int rt (headers_getitem (headers req) "Content-Length") = Val n ->
  rfile_read req n = Val body ->
  decode_utf8 body = Val body ->
  json_loads rt body = Val (PDict d) ->
  dict_lookup d "version" = Some v ->
  handle_one_request rt clk req st =
  (Val tt, st,
   [SendResponse 200; SendHeader "Content-type" "application/json"; EndHeaders;
    WfileWrite (JsonText (PDict
      [("status", PStr "success");
       ("message", PStr ("Upgrade to version " ++ py_format rt v ++ " initiated"));
       ("timestamp", PStr (now_isoformat clk))]))])
  /\ py_format rt (PInt 2) = "2"
  /\ py_format rt (PBool true) = "True"
  /\ py_format rt PNone = "None"
  /\ py_format rt (PList [PInt 1; PInt 2]) = "[1, 2]".
Proof.
  intros Hc Hp Hn Hr Hu Hj Hd.
  rewrite (upgrade_of_dict rt clk req st n body Hc Hp Hn Hr Hu d Hj), Hd.
  repeat split.
Qed.

Lemma upgrade_any_version_witness :
  let req := post_upgrade [("Content-Length", "14")] body_number in
  command req = "POST" /\ path req = "/upgrade"
  /\ json_loads sample_runtime body_number = Val (PDict [("version", PInt 2)])
  /\ handle_one_request sample_runtime sample_clock req sample_state =
     (Val tt, sample_state,
      [SendResponse 200; SendHeader "Content-type" "application/json"; EndHeaders;
       WfileWrite (JsonText (PDict
         [("status", PStr "success");
          ("message", PStr "Upgrade to version 2 initiated");
          ("timestamp", PStr "2023-11-14T22:13:32.000000")]))]).
Proof.
  cbv zeta. repeat (split; [vm_compute; reflexivity|]).
  refine (proj1 (upgrade_any_version sample_runtime sample_clock
                   (post_upgrade [("Content-Length", "14")] body_number)
                   sample_state 14%Z body_number [("version", PInt 2)] (PInt 2)
                   eq_refl eq_refl _ _ _ _ _));
    vm_compute; reflexivity.
Defined.

(** ** Routing *)

Lemma do_GET_not_found (rt : runtime) (clk : clock) (req : request) (st : server_state) :
  ~ In (path req) get_routes ->
  do_GET rt clk req st = (Val tt, st, not_found_response).
Proof.
  intros H. unfold do_GET.
  repeat match goal with
         | |- context [(path req =? ?q)] =>
             destruct (String.eqb_spec (path req) q) as [E|_];
             [exfalso; apply H; rewrite E; simpl; tauto|]
         end.
  reflexivity.
Qed.

Lemma do_POST_not_found (rt : runtime) (clk : clock) (req : request) (st : server_state) :
  ~ In (path req) post_routes ->
  do_POST rt clk req st = (Val tt, st, not_found_response).
Proof.
  intros H. unfold do_POST.
  repeat match goal with
         | |- context [(path req =? ?q)] =>
             destruct (String.eqb_spec (path req) q) as [E|_];
             [exfalso; apply H; rewrite E; simpl; tauto|]
         end.
  reflexivity.
Qed.

Lemma handle_not_found (rt : runtime) (clk : clock) (req : request) (st : server_state) :
  (command req = "GET" \/ command req = "POST") ->
  ~ In (path req) (routes (command req)) ->
  handle_one_request rt clk req st = (Val tt, st, not_found_response).
Proof.
  unfold handle_one_request, routes. intros [Hc|Hc] H; rewrite Hc in *; simpl in H.
  - now apply do_GET_not_found.
  - now apply do_POST_not_found.
Qed.

(** C3: a GET request whose path is none of /health, /version, /info,
    /metrics, and a POST request whose path is neither /restart nor
    /upgrade, is answered with status 404, [Content-type: text/plain] and
    the body [Not Found]. *)
Theorem unknown_path_not_found (rt : runtime) (clk : clock) (req : request)
    (st : server_state) :
  (command req = "GET" /\ ~ In (path req) ["/health"; "/version"; "/info"; "/metrics"])
  \/ (command req = "POST" /\ ~ In (path req) ["/restart"; "/upgrade"]) ->
  handle_one_request rt clk req st =
  (Val tt, st,
   [SendResponse 404; SendHeader "Content-type" "text/plain"; EndHeaders;
    WfileWrite (Bytes "Not Found")]).
Proof.
  intros [[Hc H]|[Hc H]]; apply handle_not_found; auto;
    unfold routes; rewrite Hc; exact H.
Qed.

Lemma unknown_path_not_found_witness :
  let req := {| command := "POST"; path := "/health"; headers := [];
                rfile := ""; rfile_eof := true |} in
  ((command req = "GET" /\ ~ In (path req) ["/health"; "/version"; "/info"; "/metrics"])
   \/ (command req = "POST" /\ ~ In (path req) ["/restart"; "/upgrade"]))
  /\ handle_one_request sample_runtime sample_clock req sample_state =
     (Val tt, sample_state,
      [SendResponse 404; SendHeader "Content-type" "text/plain"; EndHeaders;
       WfileWrite (Bytes "Not Found")]).
Proof.
  cbv zeta.
  assert (H : ("POST" = "GET" /\ ~ In "/health" ["/health"; "/version"; "/info"; "/metrics"])
              \/ ("POST" = "POST" /\ ~ In "/health" ["/restart"; "/upgrade"])).
  { right. split; [reflexivity|].
    intros [E|[E|[]]]; discriminate E. }
  split; [exact H|].
  exact (unknown_path_not_found sample_runtime sample_clock
           {| command := "POST"; path := "/health"; headers := [];
              rfile := ""; rfile_eof := true |} sample_state H).
Defined.

(** C5: routes are matched by equality of strings.  A GET or POST
    request whose path is not the table path [p] but extends it (a query
    string, a trailing slash, any suffix) or is a prefix of it, is
    answered 404, not as [p] is. *)
Theorem route_match_is_exact (rt : runtime) (clk : clock) (req : request)
    (st : server_state) (p : string) :
  command req = "GET" \/ command req = "POST" ->
  In p ["/health"; "/version"; "/info"; "/metrics"; "/restart"; "/upgrade"] ->
  path req <> p ->
  String.prefix p (path req) = true \/ String.prefix (path req) p = true ->
  handle_one_request rt clk req st =
  (Val tt, st,
   [SendResponse 404; SendHeader "Content-type" "text/plain"; EndHeaders;
    WfileWrite (Bytes "Not Found")]).
Proof.
  intros Hc Hin Hneq Hpre.
  apply handle_not_found; [exact Hc|].
  unfold routes.
  destruct Hc as [Hc|Hc]; rewrite Hc; simpl in Hin |- *;
    intros Hq;
    repeat match type of Hin with
           | _ \/ _ => destruct Hin as [Hin|Hin]
           | False => destruct Hin
           end;
    repeat match type of Hq with
           | _ \/ _ => destruct Hq as [Hq|Hq]
           | False => destruct Hq
           end;
    subst p; rewrite <- Hq in *;
    first [ now apply Hneq
          | destruct Hpre as [Hpre|Hpre]; vm_compute in Hpre; discriminate Hpre ].
Qed.

Lemma route_match_is_exact_witness :
  let req := {| command := "GET"; path := "/health?x=1"; headers := [];
                rfile := ""; rfile_eof := true |} in
  (command req = "GET" \/ command req = "POST")
  /\ In "/health" ["/health"; "/version"; "/info"; "/metrics"; "/restart"; "/upgrade"]
  /\ path req <> "/health"
  /\ (String.prefix "/health" (path req) = true \/ String.prefix (path req) "/health" = true)
  /\ handle_one_request sample_runtime sample_clock req sample_state =
     (Val tt, sample_state,
      [SendResponse 404; SendHeader "Content-type" "text/plain"; EndHeaders;
       WfileWrite (Bytes "Not Found")]).
Proof.
  cbv zeta.
  assert (H0 : "GET" = "GET" \/ "GET" = "POST") by (left; reflexivity).
  assert (H1 : In "/health" ["/health"; "/version"; "/info"; "/metrics"; "/restart"; "/upgrade"])
    by (left; reflexivity).
  assert (H2 : "/health?x=1" <> "/health") by discriminate.
  assert (H3 : String.prefix "/health" "/health?x=1" = true
               \/ String.prefix "/health?x=1" "/health" = true) by (left; reflexivity).
  repeat (split; [assumption|]).
  exact (route_match_is_exact sample_runtime sample_clock
           {| command := "GET"; path := "/health?x=1"; headers := [];
              rfile := ""; rfile_eof := true |} sample_state "/health" H0 H1 H2 H3).
Defined.

Example near_misses_not_found :
  map (fun p => snd (handle_one_request sample_runtime sample_clock
                       {| command := "GET"; path := p; headers := [];
                          rfile := ""; rfile_eof := true |} sample_state))
      ["/health/"; "/health?x=1"; "/healthz"; "/heal"; "/"; ""; "/Health"; "health";
       "/restart"; "/upgrade"]
  = repeat not_found_response 10.
Proof. vm_compute. reflexivity. Qed.

(** ** The GET routes *)

(** C7: a GET request for /version is answered with status 200 and a
    JSON body whose "current" is "1.0.0" and whose "available" is the
    list "1.0.1", "1.1.0", "2.0.0", in this order. *)
Theorem get_version (rt : runtime) (clk : clock) (req : request) (st : server_state) :
  command req = "GET" ->
  path req = "/version" ->
  handle_one_request rt clk req st =
  (Val tt, st,
   [SendResponse 200; SendHeader "Content-type" "application/json"; EndHeaders;
    WfileWrite (JsonText (PDict
      [("current", PStr "1.0.0");
       ("available", PList [PStr "1.0.1"; PStr "1.1.0"; PStr "2.0.0"])]))]).
Proof.
  intros Hc Hp. unfold handle_one_request, do_GET. rewrite Hc, Hp. reflexivity.
Qed.

Lemma get_version_witness :
  let req := {| command := "GET"; path := "/version"; headers := [("Host", "localhost")];
                rfile := ""; rfile_eof := false |} in
  command req = "GET" /\ path req = "/version"
  /\ handle_one_request sample_runtime sample_clock req sample_state =
     (Val tt, sample_state,
      [SendResponse 200; SendHeader "Content-type" "application/json"; EndHeaders;
       WfileWrite (JsonText (PDict
         [("current", PStr "1.0.0");
          ("available", PList [PStr "1.0.1"; PStr "1.1.0"; PStr "2.0.0"])]))]).
Proof.
  cbv zeta. repeat (split; [reflexivity|]).
  exact (get_version sample_runtime sample_clock
           {| command := "GET"; path := "/version"; headers := [("Host", "localhost")];
              rfile := ""; rfile_eof := false |} sample_state eq_refl eq_refl).
Defined.

Lemma handle_metrics (rt : runtime) (clk : clock) (req : request) (st : server_state) :
  command req = "GET" ->
  path req = "/metrics" ->
  handle_one_request rt clk req st = (Val tt, st, metrics_response).
Proof.
  intros Hc Hp. unfold handle_one_request, do_GET. rewrite Hc, Hp. reflexivity.
Qed.

(** C8: GET /metrics is stateless and idempotent.  Whatever the state,
    the clock and the rest of the request, the answer is status 200 with
    the JSON body of the four fixed figures, and the state is left as it
    was; two requests get the same response, and so do two requests
    served one after the other. *)
Theorem get_metrics_fixed (rt : runtime) (clk clk' : clock) (req req' : request)
    (st st' : server_state) :
  command req = "GET" -> path req = "/metrics" ->
  command req' = "GET" -> path req' = "/metrics" ->
  handle_one_request rt clk req st =
    (Val tt, st,
     [SendResponse 200; SendHeader "Content-type" "application/json"; EndHeaders;
      WfileWrite (JsonText (PDict
        [("cpu_usage", PFloat "15.2");
         ("memory_usage", PFloat "45.7");
         ("disk_usage", PFloat "23.1");
         ("active_connections", PInt 3)]))])
  /\ snd (handle_one_request rt clk req st) = snd (handle_one_request rt clk' req' st')
  /\ serve_forever rt st [(clk, req); (clk', req')] =
     (st, [(Val tt, snd (handle_one_request rt clk req st));
           (Val tt, snd (handle_one_request rt clk req st))]).
Proof.
  intros Hc Hp Hc' Hp'.
  split; [apply handle_metrics; assumption|].
  split.
  - rewrite (handle_metrics rt clk req st Hc Hp), (handle_metrics rt clk' req' st' Hc' Hp').
    reflexivity.
  - simpl.
    rewrite (handle_metrics rt clk req st Hc Hp), (handle_metrics rt clk' req' st Hc' Hp').
    reflexivity.
Qed.

Lemma get_metrics_fixed_witness :
  let req := {| command := "GET"; path := "/metrics"; headers := [];
                rfile := ""; rfile_eof := false |} in
  let req' := {| command := "GET"; path := "/metrics"; headers := [("Accept", "*/*")];
                 rfile := "x"; rfile_eof := true |} in
  command req = "GET" /\ path req = "/metrics"
  /\ command req' = "GET" /\ path req' = "/metrics"
  /\ snd (handle_one_request sample_runtime sample_clock req sample_state)
     = snd (handle_one_request sample_runtime
              {| time_time := 1800000000 # 1; now_isoformat := "2027-01-15T08:00:00" |}
              req' {| server_start_time := 5 # 2 |}).
Proof.
  cbv zeta. repeat (split; [reflexivity|]).
  exact (proj1 (proj2 (get_metrics_fixed sample_runtime sample_clock
           {| time_time := 1800000000 # 1; now_isoformat := "2027-01-15T08:00:00" |}
           {| command := "GET"; path := "/metrics"; headers := [];
              rfile := ""; rfile_eof := false |}
           {| command := "GET"; path := "/metrics"; headers := [("Accept", "*/*")];
              rfile := "x"; rfile_eof := true |}
           sample_state {| server_start_time := 5 # 2 |}
           eq_refl eq_refl eq_refl eq_refl))).
Defined.

(** ** The global state *)

Lemma preserves_ret {A} (a : A) : preserves (ret a).
Proof. intros st. reflexivity. Qed.

Lemma preserves_lift {A} (r : res A) : preserves (lift r).
Proof. intros st. reflexivity. Qed.

Lemma preserves_emit (e : event) : preserves (emit e).
Proof. intros st. reflexivity. Qed.

Lemma preserves_read_global : preserves read_global.
Proof. intros st. reflexivity. Qed.

Lemma preserves_bind {A B} (m : M A) (k : A -> M B) :
  preserves m -> (forall a, preserves (k a)) -> preserves (bind m k).
Proof.
  intros Hm Hk st. unfold bind.
  specialize (Hm st). destruct (m st) as [[r st1] out1]. simpl in Hm. subst st1.
  destruct r as [a| |]; try reflexivity.
  specialize (Hk a st). destruct (k a st) as [[r2 st2] out2]. exact Hk.
Qed.

(** The steps of [M] that preserve the state, by their shape. *)
Ltac frame :=
  repeat first
    [ apply preserves_bind; [|intro]
    | apply preserves_lift | apply preserves_emit | apply preserves_read_global
    | apply preserves_ret ].

Lemma preserves_do_GET (rt : runtime) (clk : clock) (req : request) :
  preserves (do_GET rt clk req).
Proof.
  unfold do_GET, not_found, json_head, send_response, send_header, end_headers, wfile_write.
  repeat match goal with |- context [if ?b then _ else _] => destruct b end; frame.
Qed.

Lemma preserves_do_POST (rt : runtime) (clk : clock) (req : request) :
  preserves (do_POST rt clk req).
Proof.
  unfold do_POST, not_found, json_head, send_response, send_header, end_headers, wfile_write.
  repeat match goal with |- context [if ?b then _ else _] => destruct b end; frame.
Qed.

Lemma preserves_handle (rt : runtime) (clk : clock) (req : request) :
  preserves (handle_one_request rt clk req).
Proof.
  unfold handle_one_request.
  destruct (command req =? "GET"); [apply preserves_do_GET|].
  destruct (command req =? "POST"); [apply preserves_do_POST|].
  unfold send_error. frame.
Qed.

Lemma serve_forever_state (rt : runtime) (reqs : list (clock * request)) :
  forall st, fst (serve_forever rt st reqs) = st.
Proof.
  induction reqs as [|[clk req] rest IH]; intros st; [reflexivity|].
  simpl. pose proof (preserves_handle rt clk req st) as H.
  destruct (handle_one_request rt clk req st) as [[r st1] out]. simpl in H. subst st1.
  specialize (IH st).
  destruct r; try reflexivity;
    destruct (serve_forever rt st rest) as [st2 log]; exact IH.
Qed.

(** C9: the start time is the only state; [__main__] sets it once, from
    the clock at start, and no request changes it: after any request
    (any method, path, headers, body) the state is what it was, and so
    it is after any sequence of requests. *)
Theorem start_time_read_only :
  (forall start, server_start_time (main_init start) = time_time start)
  /\ (forall rt clk req st, snd (fst (handle_one_request rt clk req st)) = st)
  /\ (forall rt start reqs, fst (main rt start reqs) = main_init start).
Proof.
  split; [reflexivity|]. split.
  - intros rt clk req st. apply preserves_handle.
  - intros rt start reqs. apply serve_forever_state.
Qed.

(** ** GET /health *)

Lemma int_of_float_cases (x : Q) :
  int_of_float x = if (0 <=? Qnum x)%Z then Qfloor x else (- Qfloor (- x))%Z.
Proof.
  destruct x as [a d]. unfold int_of_float, Qfloor, Qopp. simpl.
  destruct (Z.leb_spec 0 a) as [H|H].
  - apply Z.quot_div_nonneg; lia.
  - rewrite <- (Z.opp_involutive a) at 1.
    rewrite Z.quot_opp_l by lia.
    rewrite Z.quot_div_nonneg by lia. reflexivity.
Qed.

Lemma Qnum_nonneg (x : Q) : (0 <= x)%Q <-> (0 <= Qnum x)%Z.
Proof. unfold Qle. simpl. lia. Qed.

Lemma int_of_float_floor (x : Q) : (0 <= x)%Q -> int_of_float x = Qfloor x.
Proof.
  intros H. rewrite int_of_float_cases.
  apply Qnum_nonneg in H. destruct (Z.leb_spec 0 (Qnum x)); [reflexivity|lia].
Qed.

Lemma Qfloor_nonneg (x : Q) : (0 <= x)%Q -> (0 <= Qfloor x)%Z.
Proof. intros H. apply (Qfloor_resp_le 0 x) in H. exact H. Qed.

Lemma int_of_float_mono (x y : Q) : (x <= y)%Q -> (int_of_float x <= int_of_float y)%Z.
Proof.
  intros H. rewrite !int_of_float_cases.
  destruct (Z.leb_spec 0 (Qnum x)) as [Hx|Hx]; destruct (Z.leb_spec 0 (Qnum y)) as [Hy|Hy].
  - now apply Qfloor_resp_le.
  - exfalso. apply Qnum_nonneg in Hx.
    assert (0 <= y)%Q by (eapply Qle_trans; eauto).
    apply Qnum_nonneg in H0. lia.
  - assert (0 <= Qfloor (- x))%Z.
    { apply Qfloor_nonneg. apply Qnum_nonneg. simpl. lia. }
    assert (0 <= Qfloor y)%Z by (apply Qfloor_nonneg; now apply Qnum_nonneg).
    lia.
  - apply Qopp_le_compat in H. apply Qfloor_resp_le in H. lia.
Qed.

Lemma handle_health (rt : runtime) (clk : clock) (req : request) (st : server_state) :
  command req = "GET" ->
  path req = "/health" ->
  handle_one_request rt clk req st =
  (Val tt, st,
   [SendResponse 200; SendHeader "Content-type" "application/json"; EndHeaders;
    WfileWrite (JsonText (PDict
      [("status", PStr "healthy");
       ("timestamp", PStr (now_isoformat clk));
       ("service", PStr "test-environment");
       ("uptime", PInt (uptime rt clk st));
       ("version", PStr "1.0.0")]))]).
Proof.
  intros Hc Hp. unfold handle_one_request, do_GET. rewrite Hc, Hp. reflexivity.
Qed.

(** C4: when the subtraction of floats is monotone in its first
    argument and gives a non-negative difference for [c <= a] (as the
    rounded binary64 subtraction does), a GET request for /health is
    answered with status "healthy", version "1.0.0" and the uptime
    [int(now - server_start_time)]; handled at a time not before the
    start time, that uptime is the floor of the difference, hence not
    negative; and of two requests of the same process, the one handled
    at the later time reports an uptime at least as large. *)
Theorem health_uptime (rt : runtime) (clk clk' : clock) (req req' : request)
    (st : server_state) :
  (forall a b c, a <= b -> float_sub rt a c <= float_sub rt b c)%Q ->
  (forall a c, c <= a -> 0 <= float_sub rt a c)%Q ->
  command req = "GET" -> path req = "/health" ->
  command req' = "GET" -> path req' = "/health" ->
  (time_time clk <= time_time clk')%Q ->
  handle_one_request rt clk req st =
    (Val tt, st,
     [SendResponse 200; SendHeader "Content-type" "application/json"; EndHeaders;
      WfileWrite (JsonText (PDict
        [("status", PStr "healthy");
         ("timestamp", PStr (now_isoformat clk));
         ("service", PStr "test-environment");
         ("uptime", PInt (uptime rt clk st));
         ("version", PStr "1.0.0")]))])
  /\ handle_one_request rt clk' req' st =
    (Val tt, st,
     [SendResponse 200; SendHeader "Content-type" "application/json"; EndHeaders;
      WfileWrite (JsonText (PDict
        [("status", PStr "healthy");
         ("timestamp", PStr (now_isoformat clk'));
         ("service", PStr "test-environment");
         ("uptime", PInt (uptime rt clk' st));
         ("version", PStr "1.0.0")]))])
  /\ (uptime rt clk st <= uptime rt clk' st)%Z
  /\ ((server_start_time st <= time_time clk)%Q ->
      uptime rt clk st = Qfloor (float_sub rt (time_time clk) (server_start_time st))
      /\ (0 <= uptime rt clk st)%Z).
Proof.
  intros Hmono Hpos Hc Hp Hc' Hp' Hlater.
  split; [now apply handle_health|].
  split; [now apply handle_health|].
  unfold uptime. split.
  - apply int_of_float_mono. now apply Hmono.
  - intros Hstart. pose proof (Hpos _ _ Hstart) as H0.
    split; [now apply int_of_float_floor|].
    rewrite int_of_float_floor by exact H0. now apply Qfloor_nonneg.
Qed.

Lemma Qminus_mono (a b c : Q) : (a <= b -> a - c <= b - c)%Q.
Proof. intros H. unfold Qminus. apply Qplus_le_compat; [exact H|apply Qle_refl]. Qed.

Lemma Qminus_nonneg (a c : Q) : (c <= a -> 0 <= a - c)%Q.
Proof. intros H. now apply Qle_minus_iff in H. Qed.

Lemma health_uptime_witness :
  let req := {| command := "GET"; path := "/health"; headers := [];
                rfile := ""; rfile_eof := false |} in
  let later := {| time_time := 3400000031 # 2; now_isoformat := "2023-11-14T22:13:35.500000" |} in
  (server_start_time sample_state <= time_time sample_clock)%Q
  /\ (time_time sample_clock <= time_time later)%Q
  /\ uptime sample_runtime sample_clock sample_state = 12%Z
  /\ uptime sample_runtime later sample_state = 15%Z
  /\ (uptime sample_runtime sample_clock sample_state
      <= uptime sample_runtime later sample_state)%Z
  /\ uptime sample_runtime sample_clock sample_state
     = Qfloor (float_sub sample_runtime (time_time sample_clock)
                 (server_start_time sample_state)).
Proof.
  cbv zeta.
  assert (H1 : (server_start_time sample_state <= time_time sample_clock)%Q)
    by (vm_compute; discriminate).
  assert (H2 : (time_time sample_clock
                <= time_time {| time_time := 3400000031 # 2;
                                now_isoformat := "2023-11-14T22:13:35.500000" |})%Q)
    by (vm_compute; discriminate).
  pose proof
    (health_uptime sample_runtime sample_clock
       {| time_time := 3400000031 # 2; now_isoformat := "2023-11-14T22:13:35.500000" |}
       {| command := "GET"; path := "/health"; headers := []; rfile := ""; rfile_eof := false |}
       {| command := "GET"; path := "/health"; headers := []; rfile := ""; rfile_eof := false |}
       sample_state Qminus_mono Qminus_nonneg eq_refl eq_refl eq_refl eq_refl H2)
    as [_ [_ [Hle Hfloor]]].
  split; [exact H1|]. split; [exact H2|].
  split; [reflexivity|]. split; [reflexivity|].
  split; [exact Hle|]. exact (proj1 (Hfloor H1)).
Defined.

(** * Further properties of the handler *)

(** ** The exceptions of [json.loads] *)

Lemma match_number_error (rt : runtime) (s : string) (e : exn) :
  match_number rt s = Exc e -> loads_error e.
Proof.
  unfold match_number, loads_error. intros H.
  break_hyp H; try discriminate; inversion H; subst; tauto.
Qed.

Lemma scan_errors (rt : runtime) (fuel : nat) :
  (forall depth s e, scan_once rt fuel depth s = Exc e -> loads_error e)
  /\ (forall depth s acc e, parse_object rt fuel depth s acc = Exc e -> loads_error e)
  /\ (forall depth s acc e, parse_array rt fuel depth s acc = Exc e -> loads_error e).
Proof.
  induction fuel as [|f [IHs [IHo IHa]]].
  - repeat split; simpl; intros; discriminate.
  - repeat split; intros;
      match goal with
      | H : _ = Exc _ |- _ =>
          cbn [scan_once parse_object parse_array] in H;
          break_hyp H; try discriminate;
          try (inversion H; subst; clear H);
          first [ now (unfold loads_error; tauto)
                | now (eapply IHs; eauto)
                | now (eapply IHo; eauto)
                | now (eapply IHa; eauto)
                | now (eapply match_number_error; eauto) ]
      end.
Qed.

Lemma json_loads_error (rt : runtime) (s : string) (e : exn) :
  json_loads rt s = Exc e -> loads_error e.
Proof.
  unfold json_loads. intros H.
  destruct (scan_once rt _ _ _) as [[v r]|e'|] eqn:E; try discriminate.
  - destruct (skip_ws r); [discriminate|]. inversion H; subst. unfold loads_error; tauto.
  - inversion H; subst. eapply (proj1 (scan_errors rt _)); eauto.
Qed.

Lemma loads_error_not_attribute (e : exn) : loads_error e -> e <> AttributeError.
Proof. intros [H|[H|H]]; subst; discriminate. Qed.

(** ** The /upgrade branch, step by step *)

Lemma do_POST_upgrade (rt : runtime) (clk : clock) (req : request) :
  path req = "/upgrade" ->
  do_POST rt clk req =
  (content_length <- lift (py_int rt (headers_getitem (headers req) "Content-Length")) ;;
   post_data <- lift (rfile_read req content_length) ;;
   upgrade_from_body rt clk post_data).
Proof. intros Hp. unfold do_POST. rewrite Hp. reflexivity. Qed.

Lemma upgrade_from_body_eq (rt : runtime) (clk : clock) (body : string) (st : server_state) :
  upgrade_from_body rt clk body st =
  if utf8_valid body then
    match json_loads rt body with
    | Val (PDict d) =>
        (Val tt, st,
         json_response (PDict
           [("status", PStr "success");
            ("message", PStr ("Upgrade to version "
                              ++ py_format rt (match dict_lookup d "version" with
                                               | Some v => v
                                               | None => PStr "unknown"
                                               end)
                              ++ " initiated"));
            ("timestamp", PStr (now_isoformat clk))]))
    | Val _ => (Exc AttributeError, st, json_head_events)
    | Exc e => (Exc e, st, [])
    | Diverge => (Diverge, st, [])
    end
  else (Exc UnicodeDecodeError, st, []).
Proof.
  unfold upgrade_from_body, decode_utf8.
  destruct (utf8_valid body); [|reflexivity].
  unfold bind at 1. unfold lift at 1.
  unfold bind at 1. unfold lift at 1.
  destruct (json_loads rt body) as [v|e|]; try reflexivity.
  destruct v; reflexivity.
Qed.

Lemma upgrade_from_body_served (rt : runtime) (clk : clock) (body : string)
    (st : server_state) :
  served (fst (fst (upgrade_from_body rt clk body st))) (snd (upgrade_from_body rt clk body st)).
Proof.
  rewrite upgrade_from_body_eq.
  destruct (utf8_valid body).
  - destruct (json_loads rt body) as [v|e|] eqn:E.
    + destruct v; simpl; try apply served_headers_only. apply served_json.
    + simpl. apply served_nothing. apply loads_error_not_attribute.
      eapply json_loads_error; eauto.
    + simpl. apply served_blocked.
  - simpl. apply served_nothing. discriminate.
Qed.

Lemma py_int_error (rt : runtime) (x : option string) (e : exn) :
  py_int rt x = Exc e -> e = TypeError \/ e = ValueError.
Proof.
  destruct x as [v|]; simpl; intros H; [|inversion H; tauto].
  unfold py_int_of_str in H. break_hyp H; try discriminate; inversion H; tauto.
Qed.

Lemma py_int_returns (rt : runtime) (x : option string) : py_int rt x <> Diverge.
Proof.
  destruct x as [v|]; simpl; intros H; [|discriminate].
  unfold py_int_of_str in H. break_hyp H; discriminate.
Qed.

Lemma rfile_read_error (req : request) (n : Z) (e : exn) :
  rfile_read req n = Exc e -> e = ValueError.
Proof.
  unfold rfile_read. intros H. break_hyp H; try discriminate. now inversion H.
Qed.

Lemma do_POST_upgrade_eq (rt : runtime) (clk : clock) (req : request) (st : server_state) :
  path req = "/upgrade" ->
  do_POST rt clk req st =
  match py_int rt (headers_getitem (headers req) "Content-Length") with
  | Val n =>
      match rfile_read req n with
      | Val body => upgrade_from_body rt clk body st
      | Exc e => (Exc e, st, [])
      | Diverge => (Diverge, st, [])
      end
  | Exc e => (Exc e, st, [])
  | Diverge => (Diverge, st, [])
  end.
Proof.
  intros Hp. rewrite (do_POST_upgrade rt clk req Hp).
  unfold bind at 1. unfold lift at 1.
  destruct (py_int rt _) as [n|e|]; try reflexivity.
  unfold bind at 1. unfold lift at 1.
  destruct (rfile_read req n) as [body|e|]; try reflexivity.
  destruct (upgrade_from_body rt clk body st) as [[r st'] out]. reflexivity.
Qed.

Lemma do_POST_upgrade_served (rt : runtime) (clk : clock) (req : request)
    (st : server_state) :
  path req = "/upgrade" ->
  served (fst (fst (do_POST rt clk req st))) (snd (do_POST rt clk req st)).
Proof.
  intros Hp. rewrite (do_POST_upgrade_eq rt clk req st Hp).
  destruct (py_int rt _) as [n|e|] eqn:En.
  - destruct (rfile_read req n) as [body|e|] eqn:Er.
    + apply upgrade_from_body_served.
    + simpl. apply served_nothing. apply rfile_read_error in Er. subst. discriminate.
    + simpl. apply served_blocked.
  - simpl. apply served_nothing. apply py_int_error in En. destruct En; subst; discriminate.
  - exfalso. eapply py_int_returns; eauto.
Qed.

(** ** The routes the claims leave out *)

(** X1: GET /info is answered with status 200 and the fixed description
    of the host, whatever the state, the clock and the rest of the
    request. *)
Theorem get_info (rt : runtime) (clk : clock) (req : request) (st : server_state) :
  command req = "GET" ->
  path req = "/info" ->
  handle_one_request rt clk req st =
  (Val tt, st,
   [SendResponse 200; SendHeader "Content-type" "application/json"; EndHeaders;
    WfileWrite (JsonText (PDict
      [("hostname", PStr "test-environment");
       ("os", PStr "Linux");
       ("platform", PStr "Docker");
       ("environment", PStr "test")]))]).
Proof.
  intros Hc Hp. unfold handle_one_request, do_GET. rewrite Hc, Hp. reflexivity.
Qed.

Lemma get_info_witness :
  let req := {| command := "GET"; path := "/info"; headers := [("Accept", "text/html")];
                rfile := "ignored"; rfile_eof := false |} in
  command req = "GET" /\ path req = "/info"
  /\ handle_one_request sample_runtime sample_clock req sample_state =
     (Val tt, sample_state,
      [SendResponse 200; SendHeader "Content-type" "application/json"; EndHeaders;
       WfileWrite (JsonText (PDict
         [("hostname", PStr "test-environment");
          ("os", PStr "Linux");
          ("platform", PStr "Docker");
          ("environment", PStr "test")]))]).
Proof.
  cbv zeta. repeat (split; [reflexivity|]).
  exact (get_info sample_runtime sample_clock
           {| command := "GET"; path := "/info"; headers := [("Accept", "text/html")];
              rfile := "ignored"; rfile_eof := false |} sample_state eq_refl eq_refl).
Defined.

(** X2: POST /restart is answered with status 200, status "success",
    the message "Service restart initiated" and the time of handling.
    It reads neither the headers nor the body: a request without
    [Content-Length], or with a body that never arrives, is answered all
    the same. *)
Theorem post_restart (rt : runtime) (clk : clock) (req : request) (st : server_state) :
  command req = "POST" ->
  path req = "/restart" ->
  handle_one_request rt clk req st =
  (Val tt, st,
   [SendResponse 200; SendHeader "Content-type" "application/json"; EndHeaders;
    WfileWrite (JsonText (PDict
      [("status", PStr "success");
       ("message", PStr "Service restart initiated");
       ("timestamp", PStr (now_isoformat clk))]))]).
Proof.
  intros Hc Hp. unfold handle_one_request, do_POST. rewrite Hc, Hp. reflexivity.
Qed.

Lemma post_restart_witness :
  let req := {| command := "POST"; path := "/restart";
                headers := [("Content-Length", "ten")];
                rfile := ""; rfile_eof := false |} in
  command req = "POST" /\ path req = "/restart"
  /\ handle_one_request sample_runtime sample_clock req sample_state =
     (Val tt, sample_state,
      [SendResponse 200; SendHeader "Content-type" "application/json"; EndHeaders;
       WfileWrite (JsonText (PDict
         [("status", PStr "success");
          ("message", PStr "Service restart initiated");
          ("timestamp", PStr "2023-11-14T22:13:32.000000")]))]).
Proof.
  cbv zeta. repeat (split; [reflexivity|]).
  exact (post_restart sample_runtime sample_clock
           {| command := "POST"; path := "/restart";
              headers := [("Content-Length", "ten")];
              rfile := ""; rfile_eof := false |} sample_state eq_refl eq_refl).
Defined.

(** ** The shape of every answer *)

Lemma do_GET_served (rt : runtime) (clk : clock) (req : request) (st : server_state) :
  served (fst (fst (do_GET rt clk req st))) (snd (do_GET rt clk req st)).
Proof.
  unfold do_GET.
  repeat match goal with
         | |- context [if ?b then _ else _] =>
             destruct b; [simpl; exact (served_json _)|]
         end.
  simpl. exact served_not_found.
Qed.

Lemma do_POST_served (rt : runtime) (clk : clock) (req : request) (st : server_state) :
  served (fst (fst (do_POST rt clk req st))) (snd (do_POST rt clk req st)).
Proof.
  destruct (String.eqb_spec (path req) "/upgrade") as [Hp|Hp].
  - now apply do_POST_upgrade_served.
  - unfold do_POST.
    destruct (path req =? "/restart"); [simpl; exact (served_json _)|].
    destruct (String.eqb_spec (path req) "/upgrade"); [contradiction|].
    simpl. exact served_not_found.
Qed.

(** X3: whatever the request, the answer has one of six shapes: a
    complete JSON response (status 200, [Content-type: application/json],
    one JSON body); the complete 404 response; the library's error 501;
    nothing at all, with an exception other than [AttributeError] or with
    a handler that never returns; or the status line 200 and the headers
    without a body, with [AttributeError].  So no second status line is
    ever sent, no body precedes the headers, and a handler that returns
    has sent a complete response. *)
Theorem answer_shape (rt : runtime) (clk : clock) (req : request) (st : server_state) :
  served (fst (answer rt clk req st)) (snd (answer rt clk req st)).
Proof.
  unfold answer, handle_one_request. simpl.
  destruct (command req =? "GET"); [apply do_GET_served|].
  destruct (command req =? "POST"); [apply do_POST_served|].
  simpl. exact served_unsupported.
Qed.

Lemma upgrade_not_404 (rt : runtime) (clk : clock) (req : request) (st : server_state) :
  path req = "/upgrade" ->
  snd (do_POST rt clk req st) <> not_found_response.
Proof.
  intros Hp. rewrite (do_POST_upgrade_eq rt clk req st Hp).
  destruct (py_int rt _) as [n|e|]; try (simpl; discriminate).
  destruct (rfile_read req n) as [body|e|]; try (simpl; discriminate).
  rewrite upgrade_from_body_eq.
  destruct (utf8_valid body); [|simpl; discriminate].
  destruct (json_loads rt body) as [v|e|]; try (simpl; discriminate).
  destruct v; simpl; discriminate.
Qed.

(** X4: a GET or POST request is answered with the 404 response if and
    only if its path is none of the paths its method serves.  A path of
    the other method's table is not served either. *)
Theorem not_found_iff (rt : runtime) (clk : clock) (req : request) (st : server_state) :
  command req = "GET" \/ command req = "POST" ->
  (snd (handle_one_request rt clk req st) = not_found_response
   <-> ~ In (path req) (routes (command req))).
Proof.
  intros Hc. split.
  - intros Hout Hin. unfold handle_one_request, routes in *.
    destruct Hc as [Hc|Hc]; rewrite Hc in *; simpl in Hin, Hout.
    + unfold do_GET in Hout.
      repeat match type of Hin with
             | _ \/ _ => destruct Hin as [Hin|Hin]
             | False => destruct Hin
             end;
        rewrite <- Hin in Hout; simpl in Hout; discriminate Hout.
    + destruct Hin as [Hin|[Hin|[]]].
      * unfold do_POST in Hout. rewrite <- Hin in Hout. simpl in Hout. discriminate Hout.
      * symmetry in Hin. exact (upgrade_not_404 rt clk req st Hin Hout).
  - intros Hnot. rewrite (handle_not_found rt clk req st Hc Hnot). reflexivity.
Qed.

Lemma not_found_iff_witness :
  let req := {| command := "GET"; path := "/restart"; headers := [];
                rfile := ""; rfile_eof := true |} in
  (command req = "GET" \/ command req = "POST")
  /\ ~ In (path req) (routes (command req))
  /\ snd (handle_one_request sample_runtime sample_clock req sample_state)
     = not_found_response.
Proof.
  cbv zeta.
  assert (Hc : "GET" = "GET" \/ "GET" = "POST") by (left; reflexivity).
  assert (Hn : ~ In "/restart" (routes "GET")).
  { intros [E|[E|[E|[E|[]]]]]; discriminate E. }
  split; [exact Hc|]. split; [exact Hn|].
  exact (proj2 (not_found_iff sample_runtime sample_clock
                  {| command := "GET"; path := "/restart"; headers := [];
                     rfile := ""; rfile_eof := true |} sample_state Hc) Hn).
Defined.

(** X5: only POST /upgrade can fail.  Every other request makes the
    handler return, having sent a complete response: it raises nothing
    and waits for nothing. *)
Theorem only_upgrade_fails (rt : runtime) (clk : clock) (req : request)
    (st : server_state) :
  ~ (command req = "POST" /\ path req = "/upgrade") ->
  fst (answer rt clk req st) = Val tt
  /\ (snd (answer rt clk req st) = not_found_response
      \/ snd (answer rt clk req st) = [SendError 501]
      \/ exists v, snd (answer rt clk req st) = json_response v).
Proof.
  intros Hnot. unfold answer, handle_one_request.
  destruct (String.eqb_spec (command req) "GET") as [Hc|Hc].
  - unfold do_GET.
    repeat match goal with
           | |- context [if ?b then _ else _] =>
               destruct b; [split; [reflexivity|]; right; right; eexists; reflexivity|]
           end.
    split; [reflexivity|]. left. reflexivity.
  - destruct (String.eqb_spec (command req) "POST") as [Hc'|Hc'].
    + unfold do_POST.
      destruct (path req =? "/restart");
        [split; [reflexivity|]; right; right; eexists; reflexivity|].
      destruct (String.eqb_spec (path req) "/upgrade") as [Hp|Hp].
      * exfalso. apply Hnot. split; assumption.
      * split; [reflexivity|]. left. reflexivity.
    + split; [reflexivity|]. right. left. reflexivity.
Qed.

Lemma only_upgrade_fails_witness :
  let req := {| command := "POST"; path := "/restart"; headers := [];
                rfile := "{"; rfile_eof := false |} in
  ~ (command req = "POST" /\ path req = "/upgrade")
  /\ fst (answer sample_runtime sample_clock req sample_state) = Val tt.
Proof.
  cbv zeta.
  assert (H : ~ ("POST" = "POST" /\ "/restart" = "/upgrade")).
  { intros [_ E]. discriminate E. }
  split; [exact H|].
  exact (proj1 (only_upgrade_fails sample_runtime sample_clock
                  {| command := "POST"; path := "/restart"; headers := [];
                     rfile := "{"; rfile_eof := false |} sample_state H)).
Defined.

(** ** What the handler looks at *)

(** X6: only POST /upgrade looks at the headers and the body.  Two
    requests with the same method and path, other than POST /upgrade,
    are handled alike, whatever their headers and whatever their stream
    holds. *)
Theorem headers_and_body_unread (rt : runtime) (clk : clock) (req req' : request)
    (st : server_state) :
  command req = command req' ->
  path req = path req' ->
  ~ (command req = "POST" /\ path req = "/upgrade") ->
  handle_one_request rt clk req st = handle_one_request rt clk req' st.
Proof.
  intros Hc Hp Hnot. unfold handle_one_request. rewrite <- Hc.
  destruct (String.eqb_spec (command req) "GET") as [Hg|Hg].
  - unfold do_GET. rewrite <- Hp. reflexivity.
  - destruct (String.eqb_spec (command req) "POST") as [Hpost|Hpost]; [|reflexivity].
    unfold do_POST. rewrite <- Hp.
    destruct (path req =? "/restart"); [reflexivity|].
    destruct (String.eqb_spec (path req) "/upgrade") as [Hu|Hu]; [|reflexivity].
    exfalso. apply Hnot. split; assumption.
Qed.

Lemma headers_and_body_unread_witness :
  let req := {| command := "GET"; path := "/health"; headers := [];
                rfile := ""; rfile_eof := true |} in
  let req' := {| command := "GET"; path := "/health";
                 headers := [("Content-Length", "-7")];
                 rfile := "{"; rfile_eof := false |} in
  command req = command req' /\ path req = path req'
  /\ ~ (command req = "POST" /\ path req = "/upgrade")
  /\ handle_one_request sample_runtime sample_clock req sample_state
     = handle_one_request sample_runtime sample_clock req' sample_state.
Proof.
  cbv zeta.
  assert (H : ~ ("GET" = "POST" /\ "/health" = "/upgrade")).
  { intros [E _]. discriminate E. }
  split; [reflexivity|]. split; [reflexivity|]. split; [exact H|].
  exact (headers_and_body_unread sample_runtime sample_clock
           {| command := "GET"; path := "/health"; headers := [];
              rfile := ""; rfile_eof := true |}
           {| command := "GET"; path := "/health";
              headers := [("Content-Length", "-7")];
              rfile := "{"; rfile_eof := false |}
           sample_state eq_refl eq_refl H).
Defined.

(** X7: only GET /health looks at the start time.  Any other request
    is answered alike under any two states. *)
Theorem start_time_used_by_health_only (rt : runtime) (clk : clock) (req : request)
    (st st' : server_state) :
  ~ (command req = "GET" /\ path req = "/health") ->
  answer rt clk req st = answer rt clk req st'.
Proof.
  intros Hnot. unfold answer, handle_one_request.
  destruct (String.eqb_spec (command req) "GET") as [Hg|Hg].
  - unfold do_GET.
    destruct (String.eqb_spec (path req) "/health") as [Hh|Hh];
      [exfalso; apply Hnot; split; assumption|].
    repeat match goal with
           | |- context [if ?b then _ else _] => destruct b; [reflexivity|]
           end.
    reflexivity.
  - destruct (String.eqb_spec (command req) "POST") as [Hpost|Hpost]; [|reflexivity].
    destruct (String.eqb_spec (path req) "/upgrade") as [Hu|Hu].
    + rewrite !(do_POST_upgrade_eq rt clk req _ Hu).
      destruct (py_int rt _) as [n|e|]; try reflexivity.
      destruct (rfile_read req n) as [body|e|]; try reflexivity.
      rewrite !upgrade_from_body_eq.
      destruct (utf8_valid body); [|reflexivity].
      destruct (json_loads rt body) as [v|e|]; try reflexivity.
      destruct v; reflexivity.
    + unfold do_POST.
      destruct (path req =? "/restart"); [reflexivity|].
      destruct (String.eqb_spec (path req) "/upgrade"); [contradiction|reflexivity].
Qed.

Lemma start_time_used_by_health_only_witness :
  let req := post_upgrade [("Content-Length", "19")] body_2_0_0 in
  ~ (command req = "GET" /\ path req = "/health")
  /\ answer sample_runtime sample_clock req sample_state
     = answer sample_runtime sample_clock req {| server_start_time := 0 # 1 |}.
Proof.
  cbv zeta.
  assert (H : ~ ("POST" = "GET" /\ "/upgrade" = "/health")).
  { intros [E _]. discriminate E. }
  split; [exact H|].
  exact (start_time_used_by_health_only sample_runtime sample_clock
           (post_upgrade [("Content-Length", "19")] body_2_0_0)
           sample_state {| server_start_time := 0 # 1 |} H).
Defined.



(** ** How /upgrade reads its body *)

Lemma take_app (a b : string) : take (String.length a) (a ++ b) = a.
Proof. induction a as [|c a IH]; simpl; [destruct b; reflexivity|]. now rewrite IH. Qed.

Lemma length_app (a b : string) :
  String.length (a ++ b) = (String.length a + String.length b)%nat.
Proof. induction a as [|c a IH]; simpl; [reflexivity|]. now rewrite IH. Qed.

Lemma rfile_read_prefix (req : request) (body extra : string) (eof : bool) :
  rfile_read (with_stream req (body ++ extra) eof) (Z.of_nat (String.length body)) = Val body.
Proof.
  unfold rfile_read. simpl.
  destruct (Z.ltb_spec (Z.of_nat (String.length body)) (-1)); [lia|].
  destruct (Z.eqb_spec (Z.of_nat (String.length body)) (-1)); [lia|].
  rewrite Nat2Z.id, length_app.
  destruct (Nat.leb_spec (String.length body) (String.length body + String.length extra));
    [|lia].
  now rewrite take_app.
Qed.

Lemma handle_upgrade_eq (rt : runtime) (clk : clock) (req : request) (st : server_state) :
  command req = "POST" ->
  path req = "/upgrade" ->
  handle_one_request rt clk req st =
  match py_int rt (headers_getitem (headers req) "Content-Length") with
  | Val n =>
      match rfile_read req n with
      | Val body => upgrade_from_body rt clk body st
      | Exc e => (Exc e, st, [])
      | Diverge => (Diverge, st, [])
      end
  | Exc e => (Exc e, st, [])
  | Diverge => (Diverge, st, [])
  end.
Proof.
  intros Hc Hp. unfold handle_one_request. rewrite Hc. simpl.
  now apply do_POST_upgrade_eq.
Qed.

(** X9: /upgrade reads [Content-Length] bytes and no more.  When the
    header gives the length of [body], whatever the client sends after
    [body], and whether or not it then closes the stream, the request is
    handled as the decoding and parsing of [body] alone decide. *)
Theorem upgrade_ignores_trailing_bytes (rt : runtime) (clk : clock) (req : request)
    (st : server_state) (body extra : string) (eof : bool) :
  command req = "POST" ->
  path req = "/upgrade" ->
  py_int rt (headers_getitem (headers req) "Content-Length")
    = Val (Z.of_nat (String.length body)) ->
  handle_one_request rt clk (with_stream req (body ++ extra) eof) st
  = upgrade_from_body rt clk body st.
Proof.
  intros Hc Hp Hn.
  rewrite (handle_upgrade_eq rt clk (with_stream req (body ++ extra) eof) st Hc Hp).
  simpl headers. rewrite Hn, rfile_read_prefix. reflexivity.
Qed.

Lemma upgrade_ignores_trailing_bytes_witness :
  let req := post_upgrade [("Content-Length", "19")] "" in
  command req = "POST" /\ path req = "/upgrade"
  /\ py_int sample_runtime (headers_getitem (headers req) "Content-Length")
     = Val (Z.of_nat (String.length body_2_0_0))
  /\ handle_one_request sample_runtime sample_clock
       (with_stream req (body_2_0_0 ++ "GET /health HTTP/1.1") false) sample_state
     = (Val tt, sample_state,
        json_response (PDict
          [("status", PStr "success");
           ("message", PStr "Upgrade to version 2.0.0 initiated");
           ("timestamp", PStr "2023-11-14T22:13:32.000000")])).
Proof.
  cbv zeta. repeat (split; [reflexivity|]).
  exact (upgrade_ignores_trailing_bytes sample_runtime sample_clock
           (post_upgrade [("Content-Length", "19")] "") sample_state
           body_2_0_0 "GET /health HTTP/1.1" false eq_refl eq_refl eq_refl).
Defined.







(** X13: a body that is not UTF-8 ends the handler with
    [UnicodeDecodeError] before anything is sent. *)
Theorem upgrade_rejects_bad_utf8 (rt : runtime) (clk : clock) (req : request)
    (st : server_state) (n : Z) (body : string) :
  command req = "POST" ->
  path req = "/upgrade" ->
  py_int rt (headers_getitem (headers req) "Content-Length") = Val n ->
  rfile_read req n = Val body ->
  utf8_valid body = false ->
  handle_one_request rt clk req st = (Exc UnicodeDecodeError, st, []).
Proof.
  intros Hc Hp Hn Hr Hbad.
  rewrite (handle_upgrade_eq rt clk req st Hc Hp), Hn, Hr, upgrade_from_body_eq, Hbad.
  reflexivity.
Qed.

Lemma upgrade_rejects_bad_utf8_witness :
  let req := post_upgrade [("Content-Length", "2")] (String "255" "}") in
  command req = "POST" /\ path req = "/upgrade"
  /\ py_int sample_runtime (headers_getitem (headers req) "Content-Length") = Val 2%Z
  /\ rfile_read req 2 = Val (String "255" "}")
  /\ utf8_valid (String "255" "}") = false
  /\ handle_one_request sample_runtime sample_clock req sample_state
     = (Exc UnicodeDecodeError, sample_state, []).
Proof.
  cbv zeta. repeat (split; [reflexivity|]).
  exact (upgrade_rejects_bad_utf8 sample_runtime sample_clock
           (post_upgrade [("Content-Length", "2")] (String "255" "}"))
           sample_state 2%Z (String "255" "}")
           eq_refl eq_refl eq_refl eq_refl eq_refl).
Defined.

(** ** The serving loop *)

(** X14: requests do not influence one another.  The loop answers each
    request as if it were the only one, in the state the process started
    with, also after requests whose handler raised; it stops only at a
    request whose handler never returns.  When no handler blocks, every
    request is answered. *)
Theorem serve_forever_log (rt : runtime) (st : server_state)
    (reqs : list (clock * request)) :
  serve_forever rt st reqs = (st, answers rt st (until_blocked rt st reqs))
  /\ ((forall cr, In cr reqs -> fst (answer rt (fst cr) (snd cr) st) <> Diverge) ->
      serve_forever rt st reqs = (st, answers rt st reqs)).
Proof.
  assert (Hlog : forall l, serve_forever rt st l = (st, answers rt st (until_blocked rt st l))).
  { induction l as [|[clk req] rest IH]; [reflexivity|].
    cbn [serve_forever until_blocked fst snd]. unfold answer at 1.
    pose proof (preserves_handle rt clk req st) as Hst.
    destruct (handle_one_request rt clk req st) as [[r st1] out] eqn:E.
    simpl in Hst. subst st1. simpl fst.
    destruct r; try (rewrite IH; unfold answers; simpl; unfold answer; rewrite E; reflexivity).
    unfold answers; simpl; unfold answer; rewrite E. reflexivity. }
  split; [apply Hlog|].
  intros Hall. rewrite Hlog. f_equal. f_equal.
  induction reqs as [|cr rest IH]; [reflexivity|].
  cbn [until_blocked].
  pose proof (Hall cr (or_introl eq_refl)) as Hcr.
  destruct (fst (answer rt (fst cr) (snd cr) st)); try contradiction;
    (rewrite IH; [reflexivity|]; intros cr' Hin; apply Hall; right; exact Hin).
Qed.

Example serve_after_exception :
  snd (serve_forever sample_runtime sample_state
         [(sample_clock, post_upgrade [] "");
          (sample_clock, post_upgrade [("Content-Length", "3")] "[1]");
          (sample_clock, post_upgrade [("Content-Length", "19")] body_2_0_0)])
  = [(Exc TypeError, []);
     (Exc AttributeError, json_head_events);
     (Val tt, json_response (PDict
        [("status", PStr "success");
         ("message", PStr "Upgrade to version 2.0.0 initiated");
         ("timestamp", PStr "2023-11-14T22:13:32.000000")]))].
Proof. vm_compute. reflexivity. Qed.

(** ** Uptime when the clock is behind *)

Lemma int_of_float_ceiling (x : Q) : (x <= 0)%Q -> int_of_float x = Qceiling x.
Proof.
  intros H. rewrite int_of_float_cases. unfold Qceiling.
  destruct (Z.leb_spec 0 (Qnum x)) as [Hn|Hn]; [|reflexivity].
  assert (H0 : Qnum x = 0%Z) by (unfold Qle in H; simpl in H; lia).
  destruct x as [a d]. simpl in H0. subst a. reflexivity.
Qed.

(** X15: the uptime is truncated towards zero, not rounded down.  When
    the clock reads a time not after the start time (it was set back),
    and the subtraction of floats gives a difference that is not
    positive then, GET /health reports the ceiling of the difference:
    zero for less than a second, never a positive number. *)
Theorem uptime_when_clock_is_behind (rt : runtime) (clk : clock) (req : request)
    (st : server_state) :
  (forall a c, a <= c -> float_sub rt a c <= 0)%Q ->
  command req = "GET" -> path req = "/health" ->
  (time_time clk <= server_start_time st)%Q ->
  handle_one_request rt clk req st =
    (Val tt, st,
     [SendResponse 200; SendHeader "Content-type" "application/json"; EndHeaders;
      WfileWrite (JsonText (PDict
        [("status", PStr "healthy");
         ("timestamp", PStr (now_isoformat clk));
         ("service", PStr "test-environment");
         ("uptime", PInt (uptime rt clk st));
         ("version", PStr "1.0.0")]))])
  /\ uptime rt clk st = Qceiling (float_sub rt (time_time clk) (server_start_time st))
  /\ (uptime rt clk st <= 0)%Z.
Proof.
  intros Hneg Hc Hp Hbehind.
  split; [now apply handle_health|].
  pose proof (Hneg _ _ Hbehind) as H0. unfold uptime.
  rewrite (int_of_float_ceiling _ H0). split; [reflexivity|].
  apply (Qceiling_resp_le _ 0) in H0. exact H0.
Qed.

Lemma Qminus_nonpos (a c : Q) : (a <= c -> a - c <= 0)%Q.
Proof.
  intros H. apply Qle_minus_iff. unfold Qminus.
  setoid_replace (0 + - (a + - c))%Q with (c + - a)%Q by ring.
  now apply Qle_minus_iff in H.
Qed.

Lemma uptime_when_clock_is_behind_witness :
  let req := {| command := "GET"; path := "/health"; headers := [];
                rfile := ""; rfile_eof := false |} in
  let early := {| time_time := 3399999999 # 2; now_isoformat := "2023-11-14T22:13:19.500000" |} in
  (time_time early <= server_start_time sample_state)%Q
  /\ Qfloor (float_sub sample_runtime (time_time early) (server_start_time sample_state))
     = (-1)%Z
  /\ uptime sample_runtime early sample_state = 0%Z
  /\ (uptime sample_runtime early sample_state <= 0)%Z.
Proof.
  cbv zeta.
  assert (H : (time_time {| time_time := 3399999999 # 2;
                            now_isoformat := "2023-11-14T22:13:19.500000" |}
               <= server_start_time sample_state)%Q) by (vm_compute; discriminate).
  split; [exact H|]. split; [reflexivity|]. split; [reflexivity|].
  exact (proj2 (proj2
    (uptime_when_clock_is_behind sample_runtime
       {| time_time := 3399999999 # 2; now_isoformat := "2023-11-14T22:13:19.500000" |}
       {| command := "GET"; path := "/health"; headers := []; rfile := ""; rfile_eof := false |}
       sample_state Qminus_nonpos eq_refl eq_refl H))).
Defined.

(** ** A request that announces the length of its body *)

Lemma digits_to_Z_acc (u : Decimal.uint) :
  forall acc, digits_to_Z (Zpos acc) (NilEmpty.string_of_uint u)
              = Zpos (Pos.of_uint_acc u acc).
Proof.
  induction u; intros acc; cbn [NilEmpty.string_of_uint digits_to_Z Pos.of_uint_acc];
    try reflexivity;
    match goal with
    | |- digits_to_Z ?z _ = Zpos (Pos.of_uint_acc _ ?q) =>
        replace z with (Zpos q) by (unfold digit_val, code; simpl N_of_ascii; lia)
    end; apply IHu.
Qed.

Lemma digits_to_Z_of_uint (u : Decimal.uint) :
  digits_to_Z 0 (NilEmpty.string_of_uint u) = Z.of_N (Pos.of_uint u).
Proof.
  induction u; cbn [NilEmpty.string_of_uint digits_to_Z Pos.of_uint];
    try reflexivity;
    try (match goal with
         | |- digits_to_Z ?z _ = Z.of_N (Npos (Pos.of_uint_acc _ ?q)) =>
             replace z with (Zpos q) by (unfold digit_val, code; simpl N_of_ascii; lia)
         end; apply digits_to_Z_acc).
  replace (10 * 0 + digit_val "0")%Z with 0%Z by reflexivity. exact IHu.
Qed.

Lemma int_body_digits (u : Decimal.uint) (b : bool) :
  int_body b (NilEmpty.string_of_uint u)
  = match u with
    | Decimal.Nil => if b then Some "" else None
    | _ => Some (NilEmpty.string_of_uint u)
    end.
Proof.
  revert b. induction u; intros b; cbn [NilEmpty.string_of_uint];
    try reflexivity;
    (cbn [int_body];
     match goal with
     | |- context [is_digit ?c] =>
         lazymatch c with
         | Ascii _ _ _ _ _ _ _ _ => change (is_digit c) with true
         end
     end;
     cbv iota; rewrite IHu; destruct u; reflexivity).
Qed.

Lemma string_of_uint_nonnil (u : Decimal.uint) :
  u <> Decimal.Nil -> NilZero.string_of_uint u = NilEmpty.string_of_uint u.
Proof. destruct u; intros H; [contradiction|reflexivity..]. Qed.

(** [int] reads back what [str] writes for a number that is not
    negative. *)
Lemma py_int_of_int_repr (rt : runtime) (n : N) :
  too_many_digits rt (int_repr (Z.of_N n)) = false ->
  py_int rt (Some (int_repr (Z.of_N n))) = Val (Z.of_N n).
Proof.
  unfold int_repr. destruct n as [|p]; intros Hlim.
  - simpl in *. unfold py_int_of_str. simpl. rewrite Hlim. reflexivity.
  - cbn [Z.of_N Z.to_int NilZero.string_of_int] in *.
    pose proof (DecimalPos.Unsigned.to_uint_nonnil p) as Hnil.
    rewrite (string_of_uint_nonnil _ Hnil) in *.
    simpl py_int. unfold py_int_of_str.
    assert (Hfirst : exists c r, NilEmpty.string_of_uint (Pos.to_uint p) = String c r
                                 /\ is_digit c = true).
    { destruct (Pos.to_uint p); [contradiction|..];
        cbn [NilEmpty.string_of_uint]; eauto. }
    destruct Hfirst as [c [r [Hs Hd]]].
    assert (Hstrip : lstrip (NilEmpty.string_of_uint (Pos.to_uint p))
                     = NilEmpty.string_of_uint (Pos.to_uint p)).
    { rewrite Hs. cbn [lstrip].
      assert (Hsp : is_py_space c = false).
      { unfold is_digit, is_py_space, in_range in *.
        repeat match goal with
               | |- context [(?a <=? ?b)%N] => destruct (N.leb_spec a b)
               | |- context [(?a =? ?b)%N] => destruct (N.eqb_spec a b)
               | H : context [(?a <=? ?b)%N] |- _ => destruct (N.leb_spec a b)
               end; simpl in *; try reflexivity; try discriminate; lia. }
      rewrite Hsp. reflexivity. }
    rewrite Hstrip.
    assert (Hsign : match NilEmpty.string_of_uint (Pos.to_uint p) with
                    | String "-" r0 => (true, r0)
                    | String "+" r0 => (false, r0)
                    | _ => (false, NilEmpty.string_of_uint (Pos.to_uint p))
                    end = (false, NilEmpty.string_of_uint (Pos.to_uint p))).
    { destruct (Pos.to_uint p); [contradiction|..]; reflexivity. }
    rewrite Hsign, int_body_digits.
    destruct (Pos.to_uint p) eqn:Eu; [contradiction|..]; rewrite <- Eu in *;
      rewrite Hlim, digits_to_Z_of_uint, DecimalPos.Unsigned.of_to; reflexivity.
Qed.

(** X16: a POST request to /upgrade whose first [Content-Length] header
    is the length of its body, as [str] writes it, has the whole body
    read and is handled as the decoding and parsing of the body decide,
    whatever its other headers and whether or not the client closes the
    stream (the number of digits must be within the interpreter's limit
    for [int]). *)
Theorem upgrade_request_reads_body (rt : runtime) (clk : clock) (st : server_state)
    (hs : list (string * string)) (body : string) (eof : bool) :
  too_many_digits rt (int_repr (Z.of_nat (String.length body))) = false ->
  handle_one_request rt clk (upgrade_request hs body eof) st
  = upgrade_from_body rt clk body st.
Proof.
  intros Hlim.
  assert (Hint : py_int rt (Some (int_repr (Z.of_nat (String.length body))))
                 = Val (Z.of_nat (String.length body))).
  { rewrite <- (nat_N_Z (String.length body)) in *. now apply py_int_of_int_repr. }
  rewrite (handle_upgrade_eq rt clk (upgrade_request hs body eof) st eq_refl eq_refl).
  change (headers_getitem (headers (upgrade_request hs body eof)) "Content-Length")
    with (Some (int_repr (Z.of_nat (String.length body)))).
  rewrite Hint.
  change (Z.of_nat (String.length body))
    with (Z.of_nat (String.length (rfile (upgrade_request hs body eof)))).
  rewrite rfile_read_all. reflexivity.
Qed.

Lemma upgrade_request_reads_body_witness :
  too_many_digits sample_runtime (int_repr (Z.of_nat (String.length body_1_1_0))) = false
  /\ headers (upgrade_request [("Host", "localhost")] body_1_1_0 false)
     = [("Content-Length", "20"); ("Host", "localhost")]
  /\ handle_one_request sample_runtime sample_clock
       (upgrade_request [("Host", "localhost")] body_1_1_0 false) sample_state
     = (Val tt, sample_state,
        json_response (PDict
          [("status", PStr "success");
           ("message", PStr "Upgrade to version 1.1.0 initiated");
           ("timestamp", PStr "2023-11-14T22:13:32.000000")])).
Proof.
  repeat (split; [reflexivity|]).
  exact (upgrade_request_reads_body sample_runtime sample_clock sample_state
           [("Host", "localhost")] body_1_1_0 false eq_refl).
Defined.

(** ** The version is echoed as it was sent *)

Lemma plain_char_facts (c : ascii) :
  plain_char c = true ->
  (c =? dquote)%char = false /\ (c =? "\")%char = false
  /\ (code c <? 32)%N = false /\ in_range 0 127 c = true.
Proof.
  unfold plain_char, in_range. intros H.
  apply andb_prop in H as [H H3]. apply andb_prop in H as [H H2].
  apply andb_prop in H as [Hlo Hhi].
  apply negb_true_iff in H2, H3. apply N.leb_le in Hlo, Hhi.
  repeat split; try assumption.
  - apply N.ltb_ge. exact Hlo.
  - apply andb_true_intro. split; apply N.leb_le; lia.
Qed.

Lemma scanstring_plain (s rest : string) :
  plain s = true ->
  scanstring (s ++ String dquote rest) = Some (s, rest).
Proof.
  induction s as [|c r IH]; intros H.
  - reflexivity.
  - cbn [plain] in H. apply andb_prop in H as [Hc Hr].
    destruct (plain_char_facts c Hc) as [H1 [H2 [H3 _]]].
    cbn [append scanstring]. rewrite H1, H2, H3, (IH Hr). reflexivity.
Qed.

Lemma utf8_valid_plain (s t : string) :
  plain s = true -> utf8_valid (s ++ t) = utf8_valid t.
Proof.
  induction s as [|c r IH]; intros H; [reflexivity|].
  cbn [plain] in H. apply andb_prop in H as [Hc Hr].
  destruct (plain_char_facts c Hc) as [_ [_ [_ H4]]].
  cbn [append utf8_valid]. rewrite H4. exact (IH Hr).
Qed.

Lemma utf8_valid_ascii (c : ascii) (r : string) :
  in_range 0 127 c = true -> utf8_valid (String c r) = utf8_valid r.
Proof. intros H. cbn [utf8_valid]. now rewrite H. Qed.

Lemma length_version_body (s : string) :
  String.length (version_body s) = (14 + String.length s)%nat.
Proof.
  unfold version_body, quoted. cbn [append String.length].
  rewrite !length_app. cbn [String.length]. lia.
Qed.

Lemma append_assoc (a b c : string) : (a ++ b) ++ c = a ++ (b ++ c).
Proof. induction a as [|x a IH]; simpl; [reflexivity|]. now rewrite IH. Qed.

Lemma version_body_eq (s : string) :
  version_body s
  = String "{" (String dquote ("version" ++ String dquote
      (String ":" (String dquote (s ++ String dquote "}"))))).
Proof.
  unfold version_body, quoted. cbn [append]. rewrite append_assoc. reflexivity.
Qed.

Lemma skip_ws_head (c : ascii) (r : string) :
  is_ws c = false -> skip_ws (String c r) = String c r.
Proof. intros H. cbn [skip_ws]. now rewrite H. Qed.

Lemma next_is_head (c : ascii) (r : string) : next_is c (String c r) = Some r.
Proof. cbn [next_is]. now rewrite Ascii.eqb_refl. Qed.

Lemma next_is_miss (c c' : ascii) (r : string) :
  (c' =? c)%char = false -> next_is c (String c' r) = None.
Proof. intros H. cbn [next_is]. now rewrite H. Qed.

Lemma scan_once_object (rt : runtime) (f dp : nat) (r : string) :
  scan_once rt (S f) (S dp) (String "{" r)
  = match next_is "}" (skip_ws r) with
    | Some rest => Val (PDict [], rest)
    | None => parse_object rt f dp (skip_ws r) []
    end.
Proof. reflexivity. Qed.

Lemma scan_once_string (rt : runtime) (f depth : nat) (r : string) :
  scan_once rt (S f) depth (String dquote r)
  = match scanstring r with
    | Some (t, rest) => Val (PStr t, rest)
    | None => Exc JSONDecodeError
    end.
Proof. reflexivity. Qed.

Lemma parse_object_pair (rt : runtime) (f depth : nat) (r : string)
    (acc : list (string * pyval)) :
  parse_object rt (S f) depth (String dquote r) acc
  = match scanstring r with
    | None => Exc JSONDecodeError
    | Some (key, r1) =>
        match next_is ":" (skip_ws r1) with
        | None => Exc JSONDecodeError
        | Some r2 =>
            match scan_once rt f depth (skip_ws r2) with
            | Val (v, r3) =>
                match next_is "}" (skip_ws r3), next_is "," (skip_ws r3) with
                | Some rest, _ => Val (PDict (dict_set acc key v), rest)
                | None, Some r4 =>
                    parse_object rt f depth (skip_ws r4) (dict_set acc key v)
                | None, None => Exc JSONDecodeError
                end
            | Exc e => Exc e
            | Diverge => Diverge
            end
        end
    end.
Proof. reflexivity. Qed.

Lemma json_loads_version_body (rt : runtime) (s : string) :
  plain s = true ->
  recursion_budget rt <> 0%nat ->
  json_loads rt (version_body s) = Val (PDict [("version", PStr s)]).
Proof.
  intros Hs Hb. unfold json_loads. rewrite length_version_body.
  destruct (recursion_budget rt) as [|dp]; [contradiction|].
  replace (2 * (14 + String.length s) + 1)%nat
    with (S (S (S (26 + 2 * String.length s)))) by lia.
  generalize (26 + 2 * String.length s)%nat. intros f.
  rewrite version_body_eq.
  rewrite (skip_ws_head "{") by reflexivity.
  rewrite scan_once_object.
  rewrite (skip_ws_head dquote) by reflexivity.
  rewrite (next_is_miss "}" dquote) by reflexivity.
  rewrite parse_object_pair.
  rewrite (scanstring_plain "version" _ eq_refl).
  rewrite (skip_ws_head ":") by reflexivity.
  rewrite next_is_head.
  rewrite (skip_ws_head dquote) by reflexivity.
  rewrite scan_once_string, (scanstring_plain s "}" Hs).
  rewrite (skip_ws_head "}") by reflexivity.
  rewrite next_is_head. reflexivity.
Qed.

(** X17: a version made of printable ASCII characters other than the
    quotation mark and the backslash is echoed as it was sent: a POST
    request to /upgrade with the body [{"version":"s"}] and the matching
    [Content-Length] is answered with the message "Upgrade to version s
    initiated", whatever the text [s], the empty text included (the
    interpreter must be able to enter one nested call). *)
Theorem upgrade_echoes_version (rt : runtime) (clk : clock) (req : request)
    (st : server_state) (s : string) :
  command req = "POST" ->
  path req = "/upgrade" ->
  rfile req = version_body s ->
  py_int rt (headers_getitem (headers req) "Content-Length")
    = Val (Z.of_nat (String.length (rfile req))) ->
  plain s = true ->
  recursion_budget rt <> 0%nat ->
  handle_one_request rt clk req st =
  (Val tt, st,
   [SendResponse 200; SendHeader "Content-type" "application/json"; EndHeaders;
    WfileWrite (JsonText (PDict
      [("status", PStr "success");
       ("message", PStr ("Upgrade to version " ++ s ++ " initiated"));
       ("timestamp", PStr (now_isoformat clk))]))]).
Proof.
  intros Hc Hp Hbody Hn Hs Hb.
  rewrite (handle_upgrade_eq rt clk req st Hc Hp), Hn, rfile_read_all, Hbody.
  rewrite upgrade_from_body_eq.
  assert (Hu : utf8_valid (version_body s) = true).
  { rewrite version_body_eq. cbn [append].
    repeat rewrite utf8_valid_ascii by reflexivity.
    rewrite (utf8_valid_plain s _ Hs).
    repeat rewrite utf8_valid_ascii by reflexivity. reflexivity. }
  rewrite Hu, (json_loads_version_body rt s Hs Hb). reflexivity.
Qed.

Lemma upgrade_echoes_version_witness :
  let req := post_upgrade [("Content-Length", "26")] (version_body "3.1.4-rc.1+x") in
  command req = "POST" /\ path req = "/upgrade"
  /\ py_int sample_runtime (headers_getitem (headers req) "Content-Length")
     = Val (Z.of_nat (String.length (rfile req)))
  /\ plain "3.1.4-rc.1+x" = true
  /\ recursion_budget sample_runtime <> 0%nat
  /\ handle_one_request sample_runtime sample_clock req sample_state =
     (Val tt, sample_state,
      [SendResponse 200; SendHeader "Content-type" "application/json"; EndHeaders;
       WfileWrite (JsonText (PDict
         [("status", PStr "success");
          ("message", PStr "Upgrade to version 3.1.4-rc.1+x initiated");
          ("timestamp", PStr "2023-11-14T22:13:32.000000")]))]).
Proof.
  cbv zeta. repeat (split; [first [reflexivity | discriminate]|]).
  exact (upgrade_echoes_version sample_runtime sample_clock
           (post_upgrade [("Content-Length", "26")] (version_body "3.1.4-rc.1+x"))
           sample_state "3.1.4-rc.1+x" eq_refl eq_refl eq_refl eq_refl eq_refl
           (fun E => O_S _ (eq_sym E))).
Defined.

(** ** What a POST answer says *)

Lemma json_response_inj (v v' : pyval) : json_response v = json_response v' -> v = v'.
Proof. unfold json_response. simpl. intros H. now inversion H. Qed.

(** X18: a POST request is never told of a failure in the body of its
    answer.  Whenever a POST request gets a JSON body, the body has the
    status "success", the time of handling, and a message that is either
    "Service restart initiated" or "Upgrade to version X initiated" for
    some text X. *)
Theorem post_answers_success (rt : runtime) (clk : clock) (req : request)
    (st : server_state) (v : pyval) :
  command req = "POST" ->
  snd (handle_one_request rt clk req st) = json_response v ->
  exists m,
    v = PDict [("status", PStr "success");
               ("message", PStr m);
               ("timestamp", PStr (now_isoformat clk))]
    /\ (m = "Service restart initiated"
        \/ exists x, m = "Upgrade to version " ++ x ++ " initiated").
Proof.
  intros Hc Hout. unfold handle_one_request in Hout. rewrite Hc in Hout. simpl in Hout.
  destruct (String.eqb_spec (path req) "/upgrade") as [Hp|Hp].
  - rewrite (do_POST_upgrade_eq rt clk req st Hp) in Hout.
    destruct (py_int rt _) as [n|e|]; try discriminate Hout.
    destruct (rfile_read req n) as [body|e|]; try discriminate Hout.
    rewrite upgrade_from_body_eq in Hout.
    destruct (utf8_valid body); [|discriminate Hout].
    destruct (json_loads rt body) as [w|e|]; try discriminate Hout.
    destruct w; try discriminate Hout.
    simpl in Hout. apply json_response_inj in Hout. subst v.
    eexists. split; [reflexivity|]. right. eexists. reflexivity.
  - unfold do_POST in Hout.
    destruct (path req =? "/restart").
    + simpl in Hout. apply (json_response_inj _ v) in Hout. subst v.
      eexists. split; [reflexivity|]. left. reflexivity.
    + destruct (String.eqb_spec (path req) "/upgrade"); [contradiction|].
      discriminate Hout.
Qed.

Lemma post_answers_success_witness :
  let req := post_upgrade [("Content-Length", "14")] body_number in
  command req = "POST"
  /\ snd (handle_one_request sample_runtime sample_clock req sample_state)
     = json_response (PDict [("status", PStr "success");
                             ("message", PStr "Upgrade to version 2 initiated");
                             ("timestamp", PStr "2023-11-14T22:13:32.000000")])
  /\ exists m,
       PDict [("status", PStr "success");
              ("message", PStr "Upgrade to version 2 initiated");
              ("timestamp", PStr "2023-11-14T22:13:32.000000")]
       = PDict [("status", PStr "success");
                ("message", PStr m);
                ("timestamp", PStr (now_isoformat sample_clock))]
       /\ (m = "Service restart initiated"
           \/ exists x, m = "Upgrade to version " ++ x ++ " initiated").
Proof.
  cbv zeta. split; [reflexivity|]. split; [reflexivity|].
  exact (post_answers_success sample_runtime sample_clock
           (post_upgrade [("Content-Length", "14")] body_number) sample_state
           _ eq_refl eq_refl).
Defined.

(** X19: of a JSON object sent to /upgrade only the "version" field
    counts.  Two requests whose bodies are JSON objects with the same
    value for "version", or both without one, are answered alike,
    whatever other fields the objects have and in whatever order. *)
Theorem upgrade_ignores_other_fields (rt : runtime) (clk : clock) (req req' : request)
    (st : server_state) (n n' : Z) (body body' : string) (d d' : list (string * pyval)) :
  command req = "POST" -> path req = "/upgrade" ->
  command req' = "POST" -> path req' = "/upgrade" ->
  py_int rt (headers_getitem (headers req) "Content-Length") = Val n ->
  rfile_read req n = Val body ->
  py_int rt (headers_getitem (headers req') "Content-Length") = Val n' ->
  rfile_read req' n' = Val body' ->
  utf8_valid body = true -> utf8_valid body' = true ->
  json_loads rt body = Val (PDict d) ->
  json_loads rt body' = Val (PDict d') ->
  dict_lookup d "version" = dict_lookup d' "version" ->
  handle_one_request rt clk req st = handle_one_request rt clk req' st.
Proof.
  intros Hc Hp Hc' Hp' Hn Hr Hn' Hr' Hu Hu' Hj Hj' Hv.
  rewrite (handle_upgrade_eq rt clk req st Hc Hp), Hn, Hr.
  rewrite (handle_upgrade_eq rt clk req' st Hc' Hp'), Hn', Hr'.
  rewrite !upgrade_from_body_eq, Hu, Hu', Hj, Hj', Hv. reflexivity.
Qed.

Lemma upgrade_ignores_other_fields_witness :
  let req := post_upgrade [("Content-Length", "19")] body_2_0_0 in
  let req' := post_upgrade [("Content-Length", "51")] body_with_fields in
  String.length body_with_fields = 51%nat
  /\ json_loads sample_runtime body_with_fields
     = Val (PDict [("force", PBool true); ("version", PStr "2.0.0");
                   ("notes", PList [PInt 1; PInt 2])])
  /\ handle_one_request sample_runtime sample_clock req sample_state
     = handle_one_request sample_runtime sample_clock req' sample_state.
Proof.
  cbv zeta. split; [vm_compute; reflexivity|]. split; [vm_compute; reflexivity|].
  apply (upgrade_ignores_other_fields sample_runtime sample_clock
           (post_upgrade [("Content-Length", "19")] body_2_0_0)
           (post_upgrade [("Content-Length", "51")] body_with_fields) sample_state
           19%Z 51%Z body_2_0_0 body_with_fields
           [("version", PStr "2.0.0")]
           [("force", PBool true); ("version", PStr "2.0.0");
            ("notes", PList [PInt 1; PInt 2])]);
    vm_compute; reflexivity.
Defined.
